(** * run_dashboard: post-processing inventory checks ([pp_funcs.py])

    A shallow embedding of the functions of [pp_funcs.py] that decode model
    dates, build the per-directory series of file counts, group the
    directories by segment length, label them, infer the experiment
    properties from the path of the pp directory and build the frepp
    command; followed by the properties proved about them.

    Python values are modelled as follows: [str] is [string] (code points
    below 256), [int] and numpy integers are [Z], a raised exception is the
    [Raise] case of [result], the [nfiles] dictionary is a [gmap], and NaN in
    a series of counts is [None]. *)

From Stdlib Require Import ZArith Ascii.
From stdpp Require Import base list sorting gmap strings pretty.

(** ** Exceptions and results *)

(** Where a [ValueError] comes from. *)
Inductive value_error :=
  | VE_strptime                  (* datetime.strptime: no match, unconverted
                                    data, or a date that does not exist *)
  | VE_int                       (* int() of a string that is not a number *)
  | VE_empty_reduction           (* numpy: minimum of a zero-size array *)
  | VE_arange                    (* numpy.arange: the length cannot be
                                    computed, the step being zero *)
  | VE_not_pp (subdir : string). (* raised by pp_to_dataframe *)

Inductive exn :=
  | NotImplementedError
  | ValueError (v : value_error)
  | IndexError
  | KeyError (k : string)
  | CalledProcessError (returncode : Z).

Inductive result (A : Type) :=
  | Ok (a : A)
  | Raise (e : exn).
Arguments Ok {A} a.
Arguments Raise {A} e.

Global Instance result_ret : MRet result := λ A a, Ok a.
Global Instance result_bind : MBind result := λ A B f m,
  match m with Ok a => f a | Raise e => Raise e end.

Definition is_ok {A} (r : result A) : bool :=
  match r with Ok _ => true | Raise _ => false end.

(** ** Python strings and lists *)

Module Py.

(** [str.isspace] on one character (code points below 256). *)
Definition isspace (c : ascii) : bool :=
  let n := nat_of_ascii c in
  (9 <=? n) && (n <=? 13) || (28 <=? n) && (n <=? 32)
  || (n =? 133) || (n =? 160).

(** The characters matched by [\d]. *)
Definition isdigit (c : ascii) : bool :=
  let n := nat_of_ascii c in (48 <=? n) && (n <=? 57).

(** [s.replace(old, new)] for one-character [old] and [new]. *)
Fixpoint replace (old new : ascii) (s : string) : string :=
  match s with
  | EmptyString => EmptyString
  | String c s' =>
      String (if Ascii.eqb c old then new else c) (replace old new s')
  end.

Definition starts_word (s : string) : bool :=
  match s with
  | EmptyString => false
  | String c _ => negb (isspace c)
  end.

(** [s.split()]: the maximal runs of characters that are not whitespace. *)
Fixpoint split (s : string) : list string :=
  match s with
  | EmptyString => []
  | String c s' =>
      if isspace c then split s'
      else if starts_word s' then
        match split s' with
        | w :: ws => String c w :: ws
        | [] => [String c EmptyString]
        end
      else String c EmptyString :: split s'
  end.

(** [l[i]] for [i >= 0]. *)
Definition index {A} (l : list A) (i : nat) : result A :=
  match l !! i with Some x => Ok x | None => Raise IndexError end.

(** [l[-1]]. *)
Definition index_last {A} (l : list A) : result A :=
  match last l with Some x => Ok x | None => Raise IndexError end.

(** [s.startswith(p)]. *)
Fixpoint startswith (p s : string) : bool :=
  match p, s with
  | EmptyString, _ => true
  | String a p', String b s' => Ascii.eqb a b && startswith p' s'
  | String _ _, EmptyString => false
  end.

(** The least index at which [sub] occurs in [s], counted from [i]. *)
Fixpoint find_from (i : nat) (sub s : string) : option nat :=
  if startswith sub s then Some i
  else match s with
       | EmptyString => None
       | String _ s' => find_from (S i) sub s'
       end.

(** [s.find(sub)]: -1 when [sub] does not occur. *)
Definition find (s sub : string) : Z :=
  match find_from 0 sub s with Some i => Z.of_nat i | None => (-1)%Z end.

(** [s[i:]] and [s[:i]] for [i >= 0]. *)
Fixpoint slice_from (i : nat) (s : string) : string :=
  match i, s with
  | O, _ => s
  | S i', String _ s' => slice_from i' s'
  | S _, EmptyString => EmptyString
  end.

Fixpoint slice_to (i : nat) (s : string) : string :=
  match i, s with
  | O, _ => EmptyString
  | S i', String c s' => String c (slice_to i' s')
  | S _, EmptyString => EmptyString
  end.

(** [[m.start() for m in re.finditer(c, s)]] for a one-character pattern. *)
Fixpoint finditer_from (i : nat) (c : ascii) (s : string) : list nat :=
  match s with
  | EmptyString => []
  | String a s' =>
      if Ascii.eqb a c then i :: finditer_from (S i) c s'
      else finditer_from (S i) c s'
  end.
Definition finditer (c : ascii) (s : string) : list nat :=
  finditer_from 0 c s.

Fixpoint lstrip (s : string) : string :=
  match s with
  | EmptyString => EmptyString
  | String c s' => if isspace c then lstrip s' else s
  end.

Definition digit_value (c : ascii) : Z := (Z.of_nat (nat_of_ascii c) - 48)%Z.

Fixpoint int_digits (acc : Z) (s : string) : option Z :=
  match s with
  | EmptyString => Some acc
  | String c s' =>
      if isdigit c then int_digits (10 * acc + digit_value c)%Z s' else None
  end.

(** [int(s)] for a string of decimal digits, after leading blanks. *)
Definition int (s : string) : result Z :=
  match lstrip s with
  | EmptyString => Raise (ValueError VE_int)
  | t => match int_digits 0 t with
         | Some n => Ok n
         | None => Raise (ValueError VE_int)
         end
  end.

(** [s.zfill(width)]: zeros are inserted after a leading sign. *)
Fixpoint zeros (n : nat) : string :=
  match n with
  | O => EmptyString
  | S n' => String "0" (zeros n')
  end.

Definition zfill (width : nat) (s : string) : string :=
  let pad := zeros (width - String.length s) in
  match s with
  | String c s' =>
      if Ascii.eqb c "-" || Ascii.eqb c "+" then String c (pad +:+ s')
      else pad +:+ s
  | EmptyString => pad
  end.

(** [list(set(l))]: the distinct elements of [l]. Python leaves their
    order unspecified; each element is kept where it occurs last. *)
Definition list_set (l : list string) : list string := remove_dups l.

End Py.

(** ** [datetime.strptime] for the directives of [datestr2date] *)

Module Strptime.

(** One character of a pattern. *)
Inductive cclass :=
  | Digit                     (* \d *)
  | Range (lo hi : ascii)     (* [lo-hi] *)
  | Lit (c : ascii).

Definition cmatch (k : cclass) (c : ascii) : bool :=
  match k with
  | Digit => Py.isdigit c
  | Range lo hi =>
      (nat_of_ascii lo <=? nat_of_ascii c) && (nat_of_ascii c <=? nat_of_ascii hi)
  | Lit a => Ascii.eqb a c
  end.

(** A named group is an ordered list of alternatives, each alternative a
    sequence of character classes. *)
Definition alternative := list cclass.
Definition group := (ascii * list alternative)%type.

(** The groups of [_strptime.TimeRE] for the four directives in use. *)
Definition re_Y : list alternative := [[Digit; Digit; Digit; Digit]].
Definition re_m : list alternative :=
  [[Lit "1"; Range "0" "2"]; [Lit "0"; Range "1" "9"]; [Range "1" "9"]].
Definition re_d : list alternative :=
  [[Lit "3"; Range "0" "1"]; [Range "1" "2"; Digit]; [Lit "0"; Range "1" "9"];
   [Range "1" "9"]; [Lit " "; Range "1" "9"]].
Definition re_H : list alternative :=
  [[Lit "2"; Range "0" "3"]; [Range "0" "1"; Digit]; [Digit]].

Definition directive (c : ascii) : list alternative :=
  if Ascii.eqb c "Y" then re_Y
  else if Ascii.eqb c "m" then re_m
  else if Ascii.eqb c "d" then re_d
  else if Ascii.eqb c "H" then re_H
  else [[Lit "%"; Lit c]].

(** The pattern of a format string. *)
Fixpoint format_regex (fmt : string) : list group :=
  match fmt with
  | EmptyString => []
  | String "%" (String c fmt') => (c, directive c) :: format_regex fmt'
  | String c fmt' => ("000"%char, [[Lit c]]) :: format_regex fmt'
  end.

(** An alternative against the front of [s]: the text consumed and the
    rest. *)
Fixpoint match_alt (a : alternative) (s : string) : option (string * string) :=
  match a with
  | [] => Some (EmptyString, s)
  | k :: a' =>
      match s with
      | EmptyString => None
      | String c s' =>
          if cmatch k c then
            match match_alt a' s' with
            | Some (tok, rest) => Some (String c tok, rest)
            | None => None
            end
          else None
      end
  end.

(** [re.match]: the first match in the order of the alternatives, with
    backtracking into earlier groups; the match need not reach the end
    of the string. *)
Fixpoint re_match (gs : list group) (s : string)
    : option (list (ascii * string) * string) :=
  match gs with
  | [] => Some ([], s)
  | (name, alts) :: gs' =>
      (fix try (alts : list alternative) :=
         match alts with
         | [] => None
         | a :: alts' =>
             match match_alt a s with
             | Some (tok, rest) =>
                 match re_match gs' rest with
                 | Some (found, r) => Some ((name, tok) :: found, r)
                 | None => try alts'
                 end
             | None => try alts'
             end
         end) alts
  end.

Fixpoint found_dict (name : ascii) (found : list (ascii * string)) : option string :=
  match found with
  | [] => None
  | (n, tok) :: found' =>
      if Ascii.eqb n name then Some tok else found_dict name found'
  end.

Definition group_int (name : ascii) (dflt : Z) (found : list (ascii * string))
    : result Z :=
  match found_dict name found with
  | Some tok => Py.int tok
  | None => Ok dflt
  end.

Record datetime := mk_datetime { year : Z; month : Z; day : Z; hour : Z }.

Definition is_leap (y : Z) : bool :=
  ((y mod 4 =? 0) && (negb (y mod 100 =? 0) || (y mod 400 =? 0)))%Z.

Definition days_in_month (y m : Z) : Z :=
  (if m =? 2 then (if is_leap y then 29 else 28)
   else if (m =? 4) || (m =? 6) || (m =? 9) || (m =? 11) then 30
   else 31)%Z.

(** The check made by the [date] and [datetime] constructors. *)
Definition valid_datetime (y m d h : Z) : bool :=
  ((1 <=? y) && (y <=? 9999) && (1 <=? m) && (m <=? 12)
   && (1 <=? d) && (d <=? days_in_month y m) && (0 <=? h) && (h <=? 23))%Z.

Definition strptime (data_string format : string) : result datetime :=
  match re_match (format_regex format) data_string with
  | None => Raise (ValueError VE_strptime)
  | Some (found, rest) =>
      match rest with
      | String _ _ => Raise (ValueError VE_strptime)
      | EmptyString =>
          y ← group_int "Y" 1900 found;
          m ← group_int "m" 1 found;
          d ← group_int "d" 1 found;
          h ← group_int "H" 0 found;
          if valid_datetime y m d h then Ok (mk_datetime y m d h)
          else Raise (ValueError VE_strptime)
      end
  end.

End Strptime.

Export Strptime (datetime, mk_datetime, year, month, day, hour).

(** ** [datestr2date] *)

Definition datestr2date (datestring : string) : result datetime :=
  let n := String.length datestring in
  if n =? 4 then Strptime.strptime datestring "%Y"
  else if n =? 6 then Strptime.strptime datestring "%Y%m"
  else if n =? 8 then Strptime.strptime datestring "%Y%m%d"
  else if n =? 10 then Strptime.strptime datestring "%Y%m%d%H"
  else Raise NotImplementedError.


(** ** [glob] inside one directory *)

Module Glob.

(** [fnmatch] for patterns made of [*], [?] and ordinary characters.
    Bracket expressions are not modelled: a bracket stands for itself. *)
Fixpoint fnmatch (pat name : string) : bool :=
  match pat with
  | EmptyString =>
      match name with EmptyString => true | String _ _ => false end
  | String "*" pat' =>
      (fix star (name : string) : bool :=
         fnmatch pat' name
         || match name with
            | EmptyString => false
            | String _ name' => star name'
            end) name
  | String "?" pat' =>
      match name with
      | EmptyString => false
      | String _ name' => fnmatch pat' name'
      end
  | String c pat' =>
      match name with
      | EmptyString => false
      | String a name' => Ascii.eqb a c && fnmatch pat' name'
      end
  end.

(** The names of a directory listing selected by a pattern that does not
    start with a dot: hidden names are skipped. *)
Definition glob (listing : list string) (pat : string) : list string :=
  filter (λ name, negb (Py.startswith "." name) && fnmatch pat name = true)
         listing.

End Glob.

(** ** The numpy operations of [create_pp_series] *)

Module Np.

Definition sort (l : list Z) : list Z := merge_sort Z.le l.

(** [np.diff]: the differences of consecutive elements. *)
Fixpoint diff (l : list Z) : list Z :=
  match l with
  | a :: (b :: _) as t => (b - a)%Z :: diff t
  | _ => []
  end.

(** [a.min()], which raises on an empty array. *)
Definition min (l : list Z) : result Z :=
  match l with
  | [] => Raise (ValueError VE_empty_reduction)
  | a :: t => Ok (foldl Z.min a t)
  end.

(** [np.arange(start, stop, step)] on integers:
    [ceil((stop - start) / step)] values, none when that is negative. *)
Definition arange (start stop step : Z) : result (list Z) :=
  if (step =? 0)%Z then Raise (ValueError VE_arange)
  else
    let n := Z.to_nat (- ((- (stop - start)) `div` step))%Z in
    Ok ((λ i : nat, (start + Z.of_nat i * step)%Z) <$> seq 0 n).

End Np.

(** ** [create_pp_series] *)

(** A pandas series of file counts indexed by year; [None] is NaN. *)
Definition series := list (Z * option nat).

Fixpoint mapM {A B} (f : A → result B) (l : list A) : result (list B) :=
  match l with
  | [] => Ok []
  | x :: l' => y ← f x; ys ← mapM f l'; Ok (y :: ys)
  end.

Fixpoint foldM {A S} (f : S → A → result S) (s : S) (l : list A) : result S :=
  match l with
  | [] => Ok s
  | x :: l' => s' ← f s x; foldM f s' l'
  end.

(** [f.replace(".", " ").split()[i]] *)
Definition file_field (i : nat) (f : string) : result string :=
  Py.index (Py.split (Py.replace "." " " f)) i.

(** [date.replace("-", " ").split()[i]] *)
Definition date_part (i : nat) (date : string) : result string :=
  Py.index (Py.split (Py.replace "-" " " date)) i.

(** The two accumulators of the function. *)
Record counts := mk_counts {
  indexes : list Z;
  nfiles : gmap Z (option nat)
}.

(** The body of the loop over the dates (lines 55 to 59). *)
Definition scan_date (listing : list string) (st : counts) (date : string)
    : result counts :=
  let nfiles_raw := length (Glob.glob listing ("*" +:+ date +:+ "*.nc")) in
  b ← date_part 0 date;
  datebeg ← datestr2date b;
  e ← date_part 1 date;
  dateend ← datestr2date e;
  Ok (mk_counts (indexes st ++ [year dateend])
                (<[year dateend := Some nfiles_raw]> (nfiles st))).

(** The body of the loop over the expected end dates (lines 67 to 70); the
    second component collects the years printed. *)
Definition fill_date (enddates : list Z) (acc : counts * list Z) (date : Z)
    : counts * list Z :=
  let '(st, printed) := acc in
  if bool_decide (date ∈ enddates) then acc
  else (mk_counts (indexes st ++ [date]) (<[date := None]> (nfiles st)),
        printed ++ [date]).

(** [pd.Series(data=nfiles, index=indexes)] *)
Definition pd_Series (st : counts) : series :=
  (λ y, (y, default None (nfiles st !! y))) <$> indexes st.

Definition key_le (a b : Z * option nat) : Prop := (a.1 ≤ b.1)%Z.
Global Instance key_le_dec a b : Decision (key_le a b) := Z.le_dec _ _.

(** [s.sort_index()] *)
Definition sort_index (s : series) : series := merge_sort key_le s.

(** The dates found in the directory (lines 48 to 51). *)
Definition find_dates (listing : list string) : result (list string) :=
  let allfiles := Glob.glob listing "*.nc" in
  fields ← mapM (file_field 2) allfiles;
  dates ← mapM (file_field 1) allfiles;
  Ok (Py.list_set dates).

(** The end years and the counts of the files found (lines 52 to 59). *)
Definition scan (listing : list string) : result counts :=
  dates ← find_dates listing;
  foldM (scan_date listing) (mk_counts [] ∅) dates.

(** [np.diff(enddates).min()] for [enddates = np.sort(np.array(indexes))] *)
Definition segment_duration_of (indexes : list Z) : result Z :=
  Np.min (Np.diff (Np.sort indexes)).

(** [listing] holds the names of the entries of [ppsubdir]. The result is
    the series returned together with the years reported as missing. *)
Definition create_pp_series (listing : list string)
    (startyear endyear : option Z) : result (series * list Z) :=
  st ← scan listing;
  let enddates := Np.sort (indexes st) in
  segment_duration ← segment_duration_of (indexes st);
  start ← match startyear with
          | None => Py.index enddates 0
          | Some y => Ok y
          end;
  end_ ← match endyear with
         | None => Py.index_last enddates
         | Some y => Ok y
         end;
  expected_enddates ←
    Np.arange start (end_ + segment_duration)%Z segment_duration;
  let '(st', printed) := foldl (fill_date enddates) (st, []) expected_enddates in
  Ok (sort_index (pd_Series st'), printed).

(** ** [all_dirs_model] *)

Module Posixpath.

(** [p.rfind("/") + 1] *)
Definition after_last_sep (p : string) : nat :=
  match last (Py.finditer "/" p) with Some i => S i | None => 0 end.

Fixpoint all_sep (s : string) : bool :=
  match s with
  | EmptyString => true
  | String c s' => Ascii.eqb c "/" && all_sep s'
  end.

(** [s.rstrip("/")] *)
Fixpoint rstrip_sep (s : string) : string :=
  match s with
  | EmptyString => EmptyString
  | String c s' =>
      if all_sep s then EmptyString else String c (rstrip_sep s')
  end.

Definition basename (p : string) : string :=
  Py.slice_from (after_last_sep p) p.

Definition dirname (p : string) : string :=
  let head := Py.slice_to (after_last_sep p) p in
  if all_sep head then head else rstrip_sep head.

End Posixpath.

(** The period of a directory (lines 90 to 93). *)
Definition period_of (ftype d : string) : result string :=
  if bool_decide (ftype = "av") then
    Py.index_last (Py.split (Py.replace "_" " " (Posixpath.basename d)))
  else Ok (Posixpath.basename d).

(** The body of the inner loop (lines 99 and 100). *)
Definition add_dir (p : string) (dict_dirs : gmap string (list string))
    (d : string) : gmap string (list string) :=
  if bool_decide (Py.find d p ≠ (-1)%Z)
  then alter (λ l, l ++ [d]) p dict_dirs
  else dict_dirs.

(** The body of the outer loop (lines 97 to 100). *)
Definition add_period (all_dirs : list string)
    (dict_dirs : gmap string (list string)) (p : string)
    : gmap string (list string) :=
  foldl (add_dir p) (<[p := []]> dict_dirs) all_dirs.

(** [all_files] is the value of the recursive [glob] of line 86. *)
Definition all_dirs_model (all_files : list string) (ftype : string)
    : result (gmap string (list string)) :=
  let all_dirs := Py.list_set (Posixpath.dirname <$> all_files) in
  periods ← mapM (period_of ftype) all_dirs;
  Ok (foldl (add_period all_dirs) ∅ (Py.list_set periods)).

(** ** [pp_to_dataframe] *)

(** The label of a directory (lines 119 to 124). *)
Definition subdir_short (subdir : string) : result string :=
  let lim := Py.find subdir "pp" in
  if (lim =? -1)%Z then Raise (ValueError (VE_not_pp subdir))
  else Ok (Py.slice_from (Z.to_nat lim) subdir).

(** A data frame as its columns, each one the series it was built from;
    [pd.concat(..., axis=1)] puts a new column after the others. *)
Definition dataframe := list (string * series).

(** The body of the loop (lines 119 to 137); [fs] gives the names of the
    entries of a directory. *)
Definition add_column (fs : string → list string)
    (startyear endyear : option Z) (df : dataframe) (subdir : string)
    : result dataframe :=
  label ← subdir_short subdir;
  s ← create_pp_series (fs subdir) startyear endyear;
  Ok (df ++ [(label, s.1)]).

Definition pp_to_dataframe (fs : string → list string)
    (all_dirs : gmap string (list string)) (segment : string)
    (startyear endyear : option Z) : result dataframe :=
  subdirs ← match all_dirs !! segment with
            | Some l => Ok l
            | None => Raise (KeyError segment)
            end;
  foldM (add_column fs startyear endyear) [] subdirs.

(** ** [infer_properties_from_ppdir] *)

Definition infer_properties_from_ppdir (ppdir : string)
    : result (gmap string string) :=
  platform_runtype ← Py.index (Py.split (Py.replace "/" " " ppdir)) 4;
  cut ← Py.index (Py.finditer "-" platform_runtype) 1;
  runname ← Py.index (Py.split (Py.replace "/" " " ppdir)) 3;
  Ok (<["runtype" := Py.slice_from (cut + 1) platform_runtype]>
      (<["platform" := Py.slice_to cut platform_runtype]>
       (<["runname" := runname]> ∅))).

(** ** [run_frepp_command] *)

Definition getitem (d : gmap string string) (k : string) : result string :=
  match d !! k with Some v => Ok v | None => Raise (KeyError k) end.

(** The command line built at line 255. *)
Definition frepp_cmd (comp : string) (year : Z) (freppdict : gmap string string)
    : result string :=
  let cyear := Py.zfill 4 (pretty year) in
  freversion ← getitem freppdict "freversion";
  xmlpath ← getitem freppdict "xmlpath";
  platform ← getitem freppdict "platform";
  runtype ← getitem freppdict "runtype";
  runname ← getitem freppdict "runname";
  Ok ("module load fre/" +:+ freversion +:+ " ; frepp -t " +:+ cyear
      +:+ "0101 -R -Y " +:+ cyear +:+ " -Z " +:+ cyear +:+ " -s -x "
      +:+ xmlpath +:+ " -P " +:+ platform +:+ " -T " +:+ runtype
      +:+ " -c " +:+ comp +:+ " " +:+ runname).

(** [check_call] runs the command in a shell: it returns 0 or raises
    [CalledProcessError] with the exit status. *)
Definition run_frepp_command (shell : string → Z) (comp : string) (year : Z)
    (freppdict : gmap string string) : result Z :=
  cmd ← frepp_cmd comp year freppdict;
  let status := shell cmd in
  if (status =? 0)%Z then Ok 0%Z else Raise (CalledProcessError status).

(** ** Vocabulary of the properties *)

(** The year in which the segment of a date token ends (lines 57 and 58). *)
Definition end_year (date : string) : result Z :=
  e ← date_part 1 date;
  dateend ← datestr2date e;
  Ok (year dateend).

(** The segment tokens of the files of a directory. *)
Definition has_token (listing : list string) (date : string) : Prop :=
  ∃ f, f ∈ Glob.glob listing "*.nc" ∧ file_field 1 f = Ok date.

(** The number of files counted for a date token (line 55). *)
Definition nfiles_raw (listing : list string) (date : string) : nat :=
  length (Glob.glob listing ("*" +:+ date +:+ "*.nc")).

(** The exceptions behind the failures named by the specification. *)
Definition UnsupportedDateFormat : exn := NotImplementedError.
Definition InsufficientSegmentEvidence : exn := ValueError VE_empty_reduction.
Definition MalformedPpPath : exn := IndexError.

(** [sub in s] *)
Definition contains (s sub : string) : Prop := ∃ pre post, s = pre +:+ sub +:+ post.

(** The counts recorded after the date tokens paired with their end years
    (the effect of line 59 over the loop). *)
Definition record_counts (listing : list string) (m : gmap Z (option nat))
    (dys : list (string * Z)) : gmap Z (option nat) :=
  foldl (λ m dy, <[dy.2 := Some (nfiles_raw listing dy.1)]> m) m dys.

(** The counts after the years [ys] were marked as missing (the effect of
    line 69 over the loop). *)
Definition set_missing (m : gmap Z (option nat)) (ys : list Z)
    : gmap Z (option nat) :=
  foldl (λ m y, <[y := None]> m) m ys.

(** The first and the last year of the range filled in (lines 63 and 64). *)
Definition range_start (idx : list Z) (startyear : option Z) : result Z :=
  match startyear with None => Py.index (Np.sort idx) 0 | Some y => Ok y end.
Definition range_end (idx : list Z) (endyear : option Z) : result Z :=
  match endyear with None => Py.index_last (Np.sort idx) | Some y => Ok y end.

(** The directories whose path contains [p] (lines 98 to 100). *)
Definition bucket (all_dirs : list string) (p : string) : list string :=
  filter (λ d, Py.find d p ≠ (-1)%Z) all_dirs.


(** The components of a path, as [infer_properties_from_ppdir] splits it:
    the runs of characters between slashes and whitespace. *)
Definition components (ppdir : string) : list string :=
  Py.split (Py.replace "/" " " ppdir).

(** The number of hyphens of a string. *)
Definition hyphens (s : string) : nat := length (Py.finditer "-" s).

Fixpoint no_space (s : string) : bool :=
  match s with
  | EmptyString => true
  | String c s' => negb (Py.isspace c) && no_space s'
  end.

(** A word of a command line: not empty and free of whitespace. *)
Definition is_word (s : string) : Prop := s ≠ "" ∧ no_space s = true.

(** ** Re-encoding a decoded date

    The inverse used to state the round trip of [datestr2date]: the date
    written again in the fixed-width format it was read from. It is not part
    of [pp_funcs.py]. *)

Definition digit_char (d : Z) : ascii := ascii_of_nat (Z.to_nat (48 + d)).

(** The last [w] decimal digits of [n]. *)
Fixpoint zpad (w : nat) (n : Z) : string :=
  match w with
  | O => EmptyString
  | S w' => zpad w' (n `div` 10)%Z +:+ String (digit_char (n `mod` 10)%Z) EmptyString
  end.

Definition encode_fixed_width (width : nat) (d : datetime) : string :=
  zpad 4 (year d)
  +:+ (if 6 <=? width then zpad 2 (month d) else EmptyString)
  +:+ (if 8 <=? width then zpad 2 (day d) else EmptyString)
  +:+ (if 10 <=? width then zpad 2 (hour d) else EmptyString).

Fixpoint all_digits (s : string) : bool :=
  match s with
  | EmptyString => true
  | String c s' => Py.isdigit c && all_digits s'
  end.

(** The number written in decimal by a string of digits. *)
Fixpoint decimal_value (acc : Z) (s : string) : Z :=
  match s with
  | EmptyString => acc
  | String c s' => decimal_value (10 * acc + Py.digit_value c)%Z s'
  end.

(** The number written by the [len] characters of [s] from [off] on. *)
Definition field (off len : nat) (s : string) : Z :=
  decimal_value 0 (String.substring off len s).

(** The date a string of digits denotes exists in the calendar: the fields
    present are a year from 1 on, a month, a day of that month and an hour;
    a day or month that is absent counts as 1. *)
Definition denotes_valid_date (s : string) : Prop :=
  let n := String.length s in
  let y := field 0 4 s in
  let m := if 6 <=? n then field 4 2 s else 1%Z in
  let d := if 8 <=? n then field 6 2 s else 1%Z in
  let h := if 10 <=? n then field 8 2 s else 0%Z in
  (1 ≤ y ∧ 1 ≤ m ≤ 12 ∧ 1 ≤ d ≤ Strptime.days_in_month y m ∧ 0 ≤ h ≤ 23)%Z.

(** ** More of Python's strings *)

Module PyStr.

(** [s.replace(old, new)] for a non-empty [old]: the occurrences of [old]
    are taken from left to right and do not overlap. [skip] counts the
    characters of the current occurrence that are still to be dropped. *)
Fixpoint replace_go (old new : string) (skip : nat) (s : string) : string :=
  match s with
  | EmptyString => EmptyString
  | String c s' =>
      match skip with
      | S k => replace_go old new k s'
      | O =>
          if Py.startswith old s
          then new +:+ replace_go old new (String.length old - 1) s'
          else String c (replace_go old new 0 s')
      end
  end.

Definition replace (old new s : string) : string := replace_go old new 0 s.

Fixpoint all_space (s : string) : bool :=
  match s with
  | EmptyString => true
  | String c s' => Py.isspace c && all_space s'
  end.

(** [s.rstrip()] and [s.strip()] *)
Fixpoint rstrip (s : string) : string :=
  match s with
  | EmptyString => EmptyString
  | String c s' => if all_space s then EmptyString else String c (rstrip s')
  end.

Definition strip (s : string) : string := rstrip (Py.lstrip s).

(** The digits of a decimal literal: single underscores may separate
    digits. [after_digit] tells whether the last character read was a
    digit. *)
Fixpoint int_body (acc : Z) (after_digit : bool) (s : string) : option Z :=
  match s with
  | EmptyString => if after_digit then Some acc else None
  | String c s' =>
      if Py.isdigit c then int_body (10 * acc + Py.digit_value c)%Z true s'
      else if Ascii.eqb c "_" && after_digit then int_body acc false s'
      else None
  end.

(** [int(s)]: surrounding whitespace, an optional sign, decimal digits. *)
Definition int (s : string) : result Z :=
  let t := strip s in
  let '(negative, body) :=
    match t with
    | String "-" r => (true, r)
    | String "+" r => (false, r)
    | _ => (false, t)
    end in
  match int_body 0 false body with
  | Some n => Ok (if negative : bool then (- n)%Z else n)
  | None => Raise (ValueError VE_int)
  end.

End PyStr.

(** ** [plot_files_as_bars] *)

(** The width of the bars (line 191); the drawing itself is left to
    matplotlib. *)
Definition bar_width (segment : string) : result Z :=
  n ← PyStr.int (PyStr.replace "yr" "" segment);
  Ok (n - 1)%Z.

(** ** [create_pp_fix_button] and [check_for_missing] *)

(** A button: its text and what its callback holds on to. *)
Record button := mk_button {
  description : string;
  button_comp : string;
  button_year : Z;
  button_dict : gmap string string
}.

Definition create_pp_fix_button (comp : string) (year : Z)
    (freppdict : gmap string string) : button :=
  mk_button ("Fix " +:+ comp +:+ " for year " +:+ pretty year)
            comp year freppdict.

(** The body of [on_button_clicked]: the message printed. *)
Definition on_button_clicked (shell : string → Z) (b : button) : result string :=
  out ← run_frepp_command shell (button_comp b) (button_year b) (button_dict b);
  Ok (if (out =? 0)%Z then "pp job submitted successfully"
      else "problem submitting").

(** What the functions show: the line printed for a column with missing
    years, a button, a bar plot. *)
Inductive event :=
  | Missing (col : string) (years : list Z)
  | Display (b : button)
  | BarPlot (width : Z) (df : dataframe).

(** The index of a data frame built by [pd.concat(..., axis=1)]: the years
    of the first column, then those of each further column that are new. *)
Definition df_index (df : dataframe) : list Z :=
  foldl (λ idx (col : string * series), idx ++ filter (λ y, y ∉ idx) (col.2.*1))
        [] df.

(** The value of a column at a year of the index: NaN where the series of
    the column has no entry. *)
Definition series_at (s : series) (y : Z) : option nat :=
  match list_find (λ p : Z * option nat, p.1 = y) s with
  | Some (_, (_, v)) => v
  | None => None
  end.

(** [list(df[col].loc[df[col].isnull()].index)] *)
Definition missing_years (df : dataframe) (s : series) : list Z :=
  filter (λ y, series_at s y = None) (df_index df).

(** [col.replace("pp", "").replace("/", " ").split()[0]] (line 233) *)
Definition component_of (col : string) : result string :=
  Py.index (Py.split (Py.replace "/" " " (PyStr.replace "pp" "" col))) 0.

(** The body of the loop over the columns, whose labels are taken to be
    different from each other; the events shown so far are kept when an
    exception is raised. *)
Definition check_column (freppdict : gmap string string) (df : dataframe)
    (acc : list event * result ()) (col : string * series)
    : list event * result () :=
  match acc.2 with
  | Raise _ => acc
  | Ok _ =>
      match missing_years df col.2 with
      | [] => acc
      | missing =>
          match component_of col.1 with
          | Ok comp =>
              (acc.1 ++ Missing col.1 missing
                 :: ((λ year, Display (create_pp_fix_button comp year freppdict))
                       <$> missing),
               Ok ())
          | Raise e => (acc.1 ++ [Missing col.1 missing], Raise e)
          end
      end
  end.

Definition check_for_missing (df : dataframe) (freppdict : gmap string string)
    : list event * result () :=
  foldl (check_column freppdict df) ([], Ok ()) df.

(** ** [pp_verif] *)

(** The keys of the dictionary of [all_dirs_model], in the order in which
    they were inserted. *)
Definition all_dirs_keys (all_files : list string) (ftype : string)
    : result (list string) :=
  let all_dirs := Py.list_set (Posixpath.dirname <$> all_files) in
  periods ← mapM (period_of ftype) all_dirs;
  Ok (Py.list_set periods).

(** How [pp_verif] ends: with a value, with an exception of the functions
    it calls, or on reading [df] when the loop never assigned it. *)
Inductive outcome :=
  | Returned (df : option dataframe)
  | Raised (e : exn)
  | UnboundLocalError.

(** The state of the loop over the segments: what was shown, the last
    frame built, the exception that ended it. *)
Record verif_state := mk_verif_state {
  shown : list event;
  last_df : option dataframe;
  failure : option exn
}.

(** The body of the loop (lines 174 to 180). *)
Definition verif_segment (fs : string → list string)
    (all_dirs : gmap string (list string)) (freppdict : gmap string string)
    (startyear endyear : option Z) (st : verif_state) (seg : string)
    : verif_state :=
  match failure st with
  | Some _ => st
  | None =>
      match pp_to_dataframe fs all_dirs seg startyear endyear with
      | Raise e => mk_verif_state (shown st) (last_df st) (Some e)
      | Ok df =>
          match bar_width seg with
          | Raise e => mk_verif_state (shown st) (Some df) (Some e)
          | Ok width =>
              let '(evs, r) := check_for_missing df freppdict in
              mk_verif_state (shown st ++ BarPlot width df :: evs) (Some df)
                (match r with Ok _ => None | Raise e => Some e end)
          end
      end
  end.

(** [all_files] is the value of the [glob] of [all_dirs_model] and [fs]
    gives the entries of a directory. *)
Definition pp_verif (all_files : list string) (fs : string → list string)
    (ppdir xmlpath freversion ftype : string) (startyear endyear : option Z)
    (dfout : bool) : list event * outcome :=
  match infer_properties_from_ppdir ppdir with
  | Raise e => ([], Raised e)
  | Ok d =>
      let freppdict := <["freversion" := freversion]> (<["xmlpath" := xmlpath]> d) in
      match all_dirs_model all_files ftype, all_dirs_keys all_files ftype with
      | Ok all_dirs, Ok segs =>
          let st := foldl (verif_segment fs all_dirs freppdict startyear endyear)
                          (mk_verif_state [] None None) segs in
          (shown st,
           match failure st with
           | Some e => Raised e
           | None =>
               if dfout then
                 match last_df st with
                 | Some df => Returned (Some df)
                 | None => UnboundLocalError
                 end
               else Returned None
           end)
      | Raise e, _ => ([], Raised e)
      | _, Raise e => ([], Raised e)
      end
  end.

(** ** Sample directories *)

Definition dir_2010_2030_2040 : list string :=
  ["ocean.200101-201012.so.nc"; "ocean.200101-201012.thetao.nc";
   "ocean.202101-203012.so.nc"; "ocean.203101-204012.so.nc"].


Definition dir_shared_end_year : list string :=
  ["ocean.200101-201012.so.nc"; "ocean.200601-201012.so.nc";
   "ocean.201101-202012.so.nc"].

Definition dir_one_end_year : list string :=
  ["ocean.200101-201012.so.nc"; "ocean.200601-201012.so.nc"].

Definition dir_one_token : list string :=
  ["ocean.200101-201012.so.nc"; "ocean.200101-201012.thetao.nc"].


(** * Properties *)


Example datestr2date_ex1 :
  datestr2date "20001231" = Ok (mk_datetime 2000 12 31 0).
Proof. vm_compute. reflexivity. Qed.
Example datestr2date_ex2 : datestr2date "1999" = Ok (mk_datetime 1999 1 1 0).
Proof. vm_compute. reflexivity. Qed.
Example datestr2date_ex3 :
  datestr2date "20001301" = Raise (ValueError VE_strptime).
Proof. vm_compute. reflexivity. Qed.
Example datestr2date_ex4 :
  datestr2date "1900022912" = Raise (ValueError VE_strptime).
Proof. vm_compute. reflexivity. Qed.
Example datestr2date_ex5 : datestr2date "20000" = Raise NotImplementedError.
Proof. vm_compute. reflexivity. Qed.
Example split_ex : Py.split (Py.replace "." " " "ocean.200001-200912.so.nc")
  = ["ocean"; "200001-200912"; "so"; "nc"].
Proof. vm_compute. reflexivity. Qed.

Example create_pp_series_ex1 :
  create_pp_series dir_2010_2030_2040 None None
  = Ok ([(2010%Z, Some 2); (2020%Z, None); (2030%Z, Some 1);
         (2040%Z, Some 1)], [2020%Z]).
Proof. vm_compute. reflexivity. Qed.

Example infer_ex1 :
  infer_properties_from_ppdir "/archive/run1/gfdl-cm4/c96-prod-ESM4/pp"
  = Raise IndexError.
Proof. vm_compute. reflexivity. Qed.

Example frepp_ex1 :
  frepp_cmd "ocean_monthly" 1999
    (<["freversion" := "bronx-19"]> (<["xmlpath" := "/x/run.xml"]>
     (<["runtype" := "prod"]> (<["platform" := "gfdl.ncrc4-intel16"]>
      (<["runname" := "run1"]> ∅)))))
  = Ok "module load fre/bronx-19 ; frepp -t 19990101 -R -Y 1999 -Z 1999 -s -x /x/run.xml -P gfdl.ncrc4-intel16 -T prod -c ocean_monthly run1".
Proof. vm_compute. reflexivity. Qed.

(** ** Strings *)

Lemma str_app_nil_l s : "" +:+ s = s.
Proof. reflexivity. Qed.
Lemma str_app_cons c s t : String c s +:+ t = String c (s +:+ t).
Proof. reflexivity. Qed.
Lemma str_app_nil_r s : s +:+ "" = s.
Proof. induction s as [|c s IH]; [done|]. by rewrite str_app_cons, IH. Qed.
Lemma str_app_assoc s t u : (s +:+ t) +:+ u = s +:+ (t +:+ u).
Proof. induction s as [|c s IH]; [done|]. by rewrite !str_app_cons, IH. Qed.
Lemma str_length_app s t : String.length (s +:+ t) = String.length s + String.length t.
Proof. induction s as [|c s IH]; [done|]. rewrite str_app_cons. simpl. by rewrite IH. Qed.

(** ** Decoding dates *)

Section decode.
Import Strptime.
Local Open Scope Z_scope.

Lemma isdigit_cases c :
  Py.isdigit c = true →
  c ∈ ["0"; "1"; "2"; "3"; "4"; "5"; "6"; "7"; "8"; "9"]%char.
Proof.
  destruct c as [[] [] [] [] [] [] [] []]; vm_compute;
    first [discriminate | intros _; set_solver].
Qed.

Lemma isdigit_not_space c : Py.isdigit c = true → Py.isspace c = false.
Proof.
  destruct c as [[] [] [] [] [] [] [] []]; vm_compute;
    first [discriminate | reflexivity].
Qed.

Lemma digit_value_range c : Py.isdigit c = true → 0 ≤ Py.digit_value c ≤ 9.
Proof.
  destruct c as [[] [] [] [] [] [] [] []]; vm_compute;
    first [discriminate | intros _; split; discriminate].
Qed.

Lemma digit_char_value c : Py.isdigit c = true → digit_char (Py.digit_value c) = c.
Proof.
  destruct c as [[] [] [] [] [] [] [] []]; vm_compute;
    first [discriminate | reflexivity].
Qed.


Ltac digit_pair Ha Hb Hv H :=
  apply isdigit_cases in Ha; apply isdigit_cases in Hb; set_unfold;
  destruct Ha as [->|[->|[->|[->|[->|[->|[->|[->|[->|[->|[]]]]]]]]]]];
  destruct Hb as [->|[->|[->|[->|[->|[->|[->|[->|[->|[->|[]]]]]]]]]]];
  first [ exfalso; vm_compute in Hv; destruct Hv as [H1 H2];
          first [by apply H1 | by apply H2]
        | simpl; rewrite H; reflexivity ].

Lemma re_match_Y gs a b c d rest found r :
  Py.isdigit a = true → Py.isdigit b = true →
  Py.isdigit c = true → Py.isdigit d = true →
  re_match gs rest = Some (found, r) →
  re_match (("Y"%char, re_Y) :: gs)
           (String a (String b (String c (String d rest))))
  = Some (("Y"%char, String a (String b (String c (String d ""))))
          :: found, r).
Proof.
  intros Ha Hb Hc Hd H. simpl. rewrite Ha, Hb, Hc, Hd, H. reflexivity.
Qed.

Lemma re_match_m gs a b rest found r :
  Py.isdigit a = true → Py.isdigit b = true →
  1 ≤ 10 * Py.digit_value a + Py.digit_value b ≤ 12 →
  re_match gs rest = Some (found, r) →
  re_match (("m"%char, re_m) :: gs) (String a (String b rest))
  = Some (("m"%char, String a (String b "")) :: found, r).
Proof. intros Ha Hb Hv H. digit_pair Ha Hb Hv H. Qed.

Lemma re_match_d gs a b rest found r :
  Py.isdigit a = true → Py.isdigit b = true →
  1 ≤ 10 * Py.digit_value a + Py.digit_value b ≤ 31 →
  re_match gs rest = Some (found, r) →
  re_match (("d"%char, re_d) :: gs) (String a (String b rest))
  = Some (("d"%char, String a (String b "")) :: found, r).
Proof. intros Ha Hb Hv H. digit_pair Ha Hb Hv H. Qed.

Lemma re_match_H gs a b rest found r :
  Py.isdigit a = true → Py.isdigit b = true →
  0 ≤ 10 * Py.digit_value a + Py.digit_value b ≤ 23 →
  re_match gs rest = Some (found, r) →
  re_match (("H"%char, re_H) :: gs) (String a (String b rest))
  = Some (("H"%char, String a (String b "")) :: found, r).
Proof. intros Ha Hb Hv H. digit_pair Ha Hb Hv H. Qed.

Lemma int_digits_decimal s acc :
  all_digits s = true → Py.int_digits acc s = Some (decimal_value acc s).
Proof.
  revert acc. induction s as [|c s IH]; intros acc Hs; [done|].
  simpl in *. apply andb_true_iff in Hs as [Hc Hs]. rewrite Hc. by apply IH.
Qed.

Lemma int_decimal c s :
  all_digits (String c s) = true →
  Py.int (String c s) = Ok (decimal_value 0 (String c s)).
Proof.
  intros Hs. unfold Py.int.
  assert (Py.lstrip (String c s) = String c s) as ->.
  { simpl in *. apply andb_true_iff in Hs as [Hc _].
    by rewrite (isdigit_not_space c Hc). }
  by rewrite (int_digits_decimal _ _ Hs).
Qed.

Lemma zpad_decimal s : ∀ w acc,
  all_digits s = true →
  zpad (w + String.length s) (decimal_value acc s) = zpad w acc +:+ s.
Proof.
  induction s as [|c s IH]; intros w acc Hs.
  - simpl. by rewrite Nat.add_0_r, str_app_nil_r.
  - simpl in Hs. apply andb_true_iff in Hs as [Hc Hs].
    cbn [String.length decimal_value].
    replace (w + S (String.length s))%nat with (S w + String.length s)%nat by lia.
    rewrite IH by done. cbn [zpad].
    pose proof (digit_value_range c Hc).
    replace ((10 * acc + Py.digit_value c) `div` 10) with acc
      by (Z.div_mod_to_equations; lia).
    replace ((10 * acc + Py.digit_value c) `mod` 10) with (Py.digit_value c)
      by (Z.div_mod_to_equations; lia).
    by rewrite (digit_char_value c Hc), str_app_assoc.
Qed.

Lemma zpad_decimal_0 s :
  all_digits s = true → zpad (String.length s) (decimal_value 0 s) = s.
Proof. intros Hs. exact (zpad_decimal s 0%nat 0 Hs). Qed.



Lemma valid_datetime_true y m d h :
  1 ≤ y ≤ 9999 → 1 ≤ m ≤ 12 → 1 ≤ d ≤ days_in_month y m → 0 ≤ h ≤ 23 →
  valid_datetime y m d h = true.
Proof.
  intros. unfold valid_datetime.
  repeat (apply andb_true_iff; split); apply Z.leb_le; lia.
Qed.

Lemma strptime_found data fmt found y m d h :
  re_match (format_regex fmt) data = Some (found, "") →
  group_int "Y" 1900 found = Ok y →
  group_int "m" 1 found = Ok m →
  group_int "d" 1 found = Ok d →
  group_int "H" 0 found = Ok h →
  valid_datetime y m d h = true →
  strptime data fmt = Ok (mk_datetime y m d h).
Proof.
  intros Hre Hy Hm Hd Hh Hv. unfold strptime.
  rewrite Hre, Hy. simpl. rewrite Hm. simpl. rewrite Hd. simpl.
  rewrite Hh. simpl. by rewrite Hv.
Qed.

Lemma days_in_month_le y m : days_in_month y m ≤ 31.
Proof. unfold days_in_month. repeat case_match; lia. Qed.

Ltac split_digits H :=
  simpl in H; repeat (apply andb_true_iff in H as [? H]).


Lemma format_regex_Y : format_regex "%Y" = [("Y"%char, re_Y)].
Proof. reflexivity. Qed.
Lemma format_regex_Ym :
  format_regex "%Y%m" = [("Y"%char, re_Y); ("m"%char, re_m)].
Proof. reflexivity. Qed.
Lemma format_regex_Ymd :
  format_regex "%Y%m%d"
  = [("Y"%char, re_Y); ("m"%char, re_m); ("d"%char, re_d)].
Proof. reflexivity. Qed.
Lemma format_regex_YmdH :
  format_regex "%Y%m%d%H"
  = [("Y"%char, re_Y); ("m"%char, re_m); ("d"%char, re_d); ("H"%char, re_H)].
Proof. reflexivity. Qed.

Lemma group_int_here name dflt c tok found :
  all_digits (String c tok) = true →
  group_int name dflt ((name, String c tok) :: found)
  = Ok (decimal_value 0 (String c tok)).
Proof.
  intros Hs. unfold group_int. simpl.
  rewrite (proj2 (Ascii.eqb_eq name name) eq_refl). by apply int_decimal.
Qed.

Lemma group_int_skip name dflt n tok found :
  n ≠ name →
  group_int name dflt ((n, tok) :: found) = group_int name dflt found.
Proof.
  intros Hn. unfold group_int. simpl.
  by rewrite (proj2 (Ascii.eqb_neq n name) Hn).
Qed.

Lemma group_int_nil name dflt : group_int name dflt [] = Ok dflt.
Proof. reflexivity. Qed.

Ltac group_int_tac :=
  repeat first
    [ rewrite group_int_here
        by (cbn [all_digits];
            repeat (rewrite andb_true_iff; split; [assumption|]);
            reflexivity)
    | rewrite group_int_skip by discriminate
    | rewrite group_int_nil ];
  reflexivity.


Ltac digit_ranges :=
  repeat match goal with
         | H : Py.isdigit ?c = true |- _ =>
             lazymatch goal with
             | _ : 0 ≤ Py.digit_value c ≤ 9 |- _ => fail
             | _ => pose proof (digit_value_range c H)
             end
         end.

Ltac decode_tac Hs Hv fmt :=
  unfold denotes_valid_date, field in *;
  cbn [String.length Nat.leb String.substring decimal_value] in *;
  split_digits Hs;
  unfold datestr2date; cbn [String.length Nat.eqb];
  match type of Hv with
  | context [days_in_month ?y ?m] => pose proof (days_in_month_le y m)
  end;
  digit_ranges;
  eapply strptime_found;
  [ rewrite fmt;
    repeat first
      [ apply re_match_Y; [done..|]
      | apply re_match_m; [done|done|lia|]
      | apply re_match_d; [done|done|lia|]
      | apply re_match_H; [done|done|lia|] ];
    reflexivity
  | group_int_tac | group_int_tac | group_int_tac | group_int_tac
  | cbn [decimal_value]; apply valid_datetime_true;
    unfold days_in_month in *; simpl in *; lia ].

Lemma decode_Y a b c d :
  let s := String a (String b (String c (String d ""))) in
  all_digits s = true → denotes_valid_date s →
  datestr2date s = Ok (mk_datetime (field 0 4 s) 1 1 0).
Proof. intros s Hs Hv. subst s. decode_tac Hs Hv format_regex_Y. Qed.

Lemma decode_Ym a b c d m1 m2 :
  let s := String a (String b (String c (String d
             (String m1 (String m2 ""))))) in
  all_digits s = true → denotes_valid_date s →
  datestr2date s = Ok (mk_datetime (field 0 4 s) (field 4 2 s) 1 0).
Proof. intros s Hs Hv. subst s. decode_tac Hs Hv format_regex_Ym. Qed.

Lemma decode_Ymd a b c d m1 m2 d1 d2 :
  let s := String a (String b (String c (String d (String m1 (String m2
             (String d1 (String d2 ""))))))) in
  all_digits s = true → denotes_valid_date s →
  datestr2date s
  = Ok (mk_datetime (field 0 4 s) (field 4 2 s) (field 6 2 s) 0).
Proof. intros s Hs Hv. subst s. decode_tac Hs Hv format_regex_Ymd. Qed.

Lemma decode_YmdH a b c d m1 m2 d1 d2 h1 h2 :
  let s := String a (String b (String c (String d (String m1 (String m2
             (String d1 (String d2 (String h1 (String h2 ""))))))))) in
  all_digits s = true → denotes_valid_date s →
  datestr2date s
  = Ok (mk_datetime (field 0 4 s) (field 4 2 s) (field 6 2 s) (field 8 2 s)).
Proof. intros s Hs Hv. subst s. decode_tac Hs Hv format_regex_YmdH. Qed.

Lemma zpad4 a b c d :
  Py.isdigit a = true → Py.isdigit b = true →
  Py.isdigit c = true → Py.isdigit d = true →
  zpad 4 (decimal_value 0 (String a (String b (String c (String d "")))))
  = String a (String b (String c (String d ""))).
Proof.
  intros Ha Hb Hc Hd.
  apply (zpad_decimal_0 (String a (String b (String c (String d ""))))).
  simpl. by rewrite Ha, Hb, Hc, Hd.
Qed.

Lemma zpad2 a b :
  Py.isdigit a = true → Py.isdigit b = true →
  zpad 2 (decimal_value 0 (String a (String b ""))) = String a (String b "").
Proof.
  intros Ha Hb. apply (zpad_decimal_0 (String a (String b ""))).
  simpl. by rewrite Ha, Hb.
Qed.

Ltac encode_tac Hs :=
  split_digits Hs; unfold encode_fixed_width, field;
  cbn [year month day hour String.length Nat.leb String.substring];
  rewrite zpad4, ?zpad2 by assumption; reflexivity.

(** Claim C7. A string of 4, 6, 8 or 10 digits that denotes a date of the
    calendar is decoded to that date: the year is the number written by
    the first four digits, then month, day and hour by two digits each,
    month and day being 1 and the hour 0 when absent; writing the date
    again in the same fixed-width format gives the string back. *)
Theorem datestr2date_roundtrip s :
  all_digits s = true →
  String.length s ∈ [4; 6; 8; 10]%nat →
  denotes_valid_date s →
  ∃ dt, datestr2date s = Ok dt
    ∧ year dt = field 0 4 s
    ∧ month dt = (if (6 <=? String.length s)%nat then field 4 2 s else 1)
    ∧ day dt = (if (8 <=? String.length s)%nat then field 6 2 s else 1)
    ∧ hour dt = (if (10 <=? String.length s)%nat then field 8 2 s else 0)
    ∧ encode_fixed_width (String.length s) dt = s.
Proof.
  intros Hs Hlen Hv. set_unfold in Hlen.
  destruct Hlen as [Hlen|[Hlen|[Hlen|[Hlen|[]]]]].
  - destruct s as [|a [|b [|c [|d [|? ?]]]]]; try discriminate.
    eexists. split; [by apply decode_Y|].
    repeat split. encode_tac Hs.
  - destruct s as [|a [|b [|c [|d [|m1 [|m2 [|? ?]]]]]]]; try discriminate.
    eexists. split; [by apply decode_Ym|].
    repeat split. encode_tac Hs.
  - destruct s as [|a [|b [|c [|d [|m1 [|m2 [|d1 [|d2 [|? ?]]]]]]]]];
      try discriminate.
    eexists. split; [by apply decode_Ymd|].
    repeat split. encode_tac Hs.
  - destruct s as [|a [|b [|c [|d [|m1 [|m2 [|d1 [|d2 [|h1 [|h2 [|? ?]]]]]]]]]]];
      try discriminate.
    eexists. split; [by apply decode_YmdH|].
    repeat split. encode_tac Hs.
Qed.

Lemma datestr2date_roundtrip_witness :
  ∃ dt, datestr2date "2000022912" = Ok dt
    ∧ year dt = 2000 ∧ month dt = 2 ∧ day dt = 29 ∧ hour dt = 12
    ∧ encode_fixed_width 10 dt = "2000022912".
Proof.
  apply (datestr2date_roundtrip "2000022912").
  - reflexivity.
  - compute_done.
  - vm_compute. repeat split; discriminate.
Defined.

(** Claim C6. A date string whose length is not 4, 6, 8 or 10 is refused
    with [NotImplementedError] ([UnsupportedDateFormat]). *)
Theorem datestr2date_unsupported_length s :
  String.length s ∉ [4; 6; 8; 10]%nat →
  datestr2date s = Raise UnsupportedDateFormat.
Proof.
  intros Hlen. unfold datestr2date, UnsupportedDateFormat.
  repeat case_match; try done;
    exfalso; apply Hlen;
    match goal with H : (_ =? _)%nat = true |- _ =>
      apply Nat.eqb_eq in H; rewrite H end; set_solver.
Qed.

Lemma datestr2date_unsupported_length_witness :
  datestr2date "20000" = Raise UnsupportedDateFormat
  ∧ datestr2date "200001010000" = Raise UnsupportedDateFormat.
Proof.
  split; apply datestr2date_unsupported_length; compute_done.
Defined.
End decode.

(** ** Searching in strings *)

Section find.
Implicit Types s sub pre post : string.

Lemma startswith_spec sub s :
  Py.startswith sub s = true ↔ ∃ post, s = sub +:+ post.
Proof.
  revert s. induction sub as [|a sub IH]; intros s; simpl.
  - split; [by exists s|done].
  - destruct s as [|b s].
    + split; [done|]. by intros [post Hp].
    + rewrite andb_true_iff, IH, Ascii.eqb_eq. split.
      * intros [-> [post ->]]. by exists post.
      * intros [post Hp]. rewrite str_app_cons in Hp.
        injection Hp as -> ->. split; [done|]. by exists post.
Qed.

Lemma contains_nil sub : contains "" sub ↔ sub = "".
Proof.
  split.
  - intros (pre & post & Hs). destruct pre; [|done].
    destruct sub; [done|]. by rewrite str_app_nil_l, str_app_cons in Hs.
  - intros ->. by exists "", "".
Qed.

Lemma contains_cons c s sub :
  contains (String c s) sub
  ↔ Py.startswith sub (String c s) = true ∨ contains s sub.
Proof.
  rewrite startswith_spec. split.
  - intros (pre & post & Hs). destruct pre as [|a pre].
    + left. by exists post.
    + right. rewrite str_app_cons in Hs. injection Hs as -> ->.
      by exists pre, post.
  - intros [[post Hs]|(pre & post & ->)].
    + by exists "", post.
    + by exists (String c pre), post.
Qed.

(** [find_from] returns the least position at which [sub] occurs. *)
Lemma find_from_Some sub s : ∀ i n,
  Py.find_from i sub s = Some n ↔
  ∃ pre post, s = pre +:+ sub +:+ post ∧ n = i + String.length pre
    ∧ ∀ pre' post', s = pre' +:+ sub +:+ post' →
        String.length pre ≤ String.length pre'.
Proof.
  induction s as [|c s IH]; intros i n.
  - cbn [Py.find_from]. destruct (Py.startswith sub "") eqn:Hsw.
    + apply startswith_spec in Hsw as [post Hp]. split.
      * intros [= <-]. exists "", post. split; [done|].
        split; [simpl; lia|]. intros; simpl; lia.
      * intros (pre & post' & Hs & -> & _).
        destruct pre; [f_equal; simpl; lia|done].
    + split; [done|]. intros (pre & post & Hs & _).
      assert (Py.startswith sub "" = true); [|congruence].
      apply startswith_spec. destruct pre; [|done]. by exists post.
  - cbn [Py.find_from]. destruct (Py.startswith sub (String c s)) eqn:Hsw.
    + apply startswith_spec in Hsw as [post Hp]. split.
      * intros [= <-]. exists "", post. split; [done|].
        split; [simpl; lia|]. intros; simpl; lia.
      * intros (pre & post' & Hs & -> & Hmin).
        pose proof (Hmin "" post Hp) as Hle. simpl in Hle.
        destruct pre; [f_equal; simpl; lia|simpl in Hle; lia].
    + rewrite IH. split.
      * intros (pre & post & -> & -> & Hmin).
        exists (String c pre), post. split; [done|]. split; [simpl; lia|].
        intros pre' post' Hs. destruct pre' as [|a pre'].
        { assert (Py.startswith sub (String c (pre +:+ sub +:+ post)) = true);
            [|congruence].
          apply startswith_spec. by exists post'. }
        rewrite str_app_cons in Hs. injection Hs as <- Hs.
        pose proof (Hmin pre' post' Hs). simpl. lia.
      * intros (pre & post & Hs & -> & Hmin). destruct pre as [|a pre].
        { assert (Py.startswith sub (String c s) = true); [|congruence].
          apply startswith_spec. by exists post. }
        rewrite str_app_cons in Hs. injection Hs as <- ->.
        exists pre, post. split; [done|]. split; [simpl; lia|].
        intros pre' post' Hs.
        pose proof (Hmin (String c pre') post') as Hle.
        rewrite str_app_cons, Hs in Hle. specialize (Hle eq_refl).
        simpl in Hle. lia.
Qed.

Lemma find_from_None sub s i :
  Py.find_from i sub s = None ↔ ¬ contains s sub.
Proof.
  revert i. induction s as [|c s IH]; intros i; cbn [Py.find_from].
  - rewrite contains_nil. destruct (Py.startswith sub "") eqn:Hsw.
    + apply startswith_spec in Hsw as [post Hp]. split; [done|].
      intros []. destruct sub; [done|]. by rewrite str_app_cons in Hp.
    + split; [|done]. intros _ ->. done.
  - rewrite contains_cons. destruct (Py.startswith sub (String c s)).
    + split; [done|]. intros []. by left.
    + rewrite IH. naive_solver.
Qed.

Lemma find_neg s sub : Py.find s sub = (-1)%Z ↔ ¬ contains s sub.
Proof.
  unfold Py.find. rewrite <-(find_from_None sub s 0).
  destruct (Py.find_from 0 sub s); [|done]. split; [lia|done].
Qed.

Lemma find_nonneg s sub : (-1 ≤ Py.find s sub)%Z.
Proof. unfold Py.find. destruct (Py.find_from 0 sub s); lia. Qed.

Lemma slice_from_app pre s : Py.slice_from (String.length pre) (pre +:+ s) = s.
Proof. induction pre as [|c pre IH]; [by destruct s|]. done. Qed.

Lemma slice_to_app pre s : Py.slice_to (String.length pre) (pre +:+ s) = pre.
Proof.
  induction pre as [|c pre IH]; [by destruct s|].
  rewrite str_app_cons. simpl. by rewrite IH.
Qed.

End find.

(** ** Sorting, differences and their minimum *)

Section cadence.
Local Open Scope Z_scope.
Implicit Types l idx : list Z.

Lemma sort_Permutation l : Np.sort l ≡ₚ l.
Proof. apply merge_sort_Permutation. Qed.

Lemma sort_StronglySorted l : StronglySorted Z.le (Np.sort l).
Proof. apply (StronglySorted_merge_sort Z.le). Qed.

Lemma sort_unique l l' :
  l ≡ₚ l' → StronglySorted Z.le l' → Np.sort l = l'.
Proof.
  intros Hp Hs. apply (StronglySorted_unique Z.le); [apply sort_StronglySorted|done|].
  by rewrite sort_Permutation.
Qed.

Lemma diff_cons a b l : Np.diff (a :: b :: l) = (b - a) :: Np.diff (b :: l).
Proof. reflexivity. Qed.

Lemma diff_length l : length (Np.diff l) = pred (length l).
Proof.
  induction l as [|a [|b l] IH]; [done..|].
  rewrite diff_cons. simpl in *. by rewrite IH.
Qed.

Lemma diff_elem l d :
  d ∈ Np.diff l → ∃ a b, a ∈ l ∧ b ∈ l ∧ d = b - a.
Proof.
  induction l as [|a [|b l] IH]; [by intros ?%elem_of_nil..|].
  rewrite diff_cons, elem_of_cons. intros [->|Hd].
  - exists a, b. set_solver.
  - destruct (IH Hd) as (a' & b' & ? & ? & ?). exists a', b'. set_solver.
Qed.

Lemma diff_nonneg l : StronglySorted Z.le l → Forall (λ d, 0 ≤ d) (Np.diff l).
Proof.
  induction l as [|a [|b l] IH]; intros Hs; [by constructor..|].
  rewrite diff_cons. apply StronglySorted_cons in Hs as [Ha Hs].
  constructor; [|by apply IH].
  apply Forall_cons in Ha as [? _]. lia.
Qed.

Lemma diff_dup l : StronglySorted Z.le l → ¬ NoDup l → 0 ∈ Np.diff l.
Proof.
  induction l as [|a [|b l] IH]; intros Hs Hd.
  - destruct Hd. constructor.
  - destruct Hd. apply NoDup_singleton.
  - rewrite diff_cons. apply StronglySorted_cons in Hs as [Ha Hs].
    destruct (decide (a ∈ b :: l)) as [Hin|Hnin].
    + assert (b ≤ a).
      { apply StronglySorted_cons in Hs as [Hb _].
        apply elem_of_cons in Hin as [->|Hin]; [lia|].
        by apply (proj1 (Forall_forall _ _) Hb). }
      apply Forall_cons in Ha as [? _].
      replace (b - a) with 0 by lia. left.
    + right. apply IH; [done|]. intros Hnd. apply Hd. by constructor.
Qed.

Lemma diff_gap l a b :
  StronglySorted Z.le l → a ∈ l → b ∈ l → a < b →
  ∃ d, d ∈ Np.diff l ∧ d ≤ b - a.
Proof.
  induction l as [|x [|y l] IH]; intros Hs Ha Hb Hab.
  - by apply elem_of_nil in Ha.
  - apply list_elem_of_singleton in Ha, Hb. lia.
  - rewrite diff_cons. apply StronglySorted_cons in Hs as [Hx Hs].
    apply elem_of_cons in Ha as [->|Ha].
    + apply elem_of_cons in Hb as [->|Hb]; [lia|].
      exists (y - x). split; [left|].
      apply StronglySorted_cons in Hs as [Hy _].
      apply elem_of_cons in Hb as [->|Hb]; [lia|].
      pose proof (proj1 (Forall_forall _ _) Hy b Hb). lia.
    + apply elem_of_cons in Hb as [->|Hb].
      { pose proof (proj1 (Forall_forall _ _) Hx a Ha). lia. }
      destruct (IH Hs Ha Hb Hab) as (d & ? & ?).
      exists d. split; [by right|done].
Qed.

Lemma foldl_min_spec l a :
  (foldl Z.min a l = a ∨ foldl Z.min a l ∈ l)
  ∧ foldl Z.min a l ≤ a ∧ Forall (λ x, foldl Z.min a l ≤ x) l.
Proof.
  revert a. induction l as [|x l IH]; intros a; simpl.
  - split; [by left|]. split; [lia|constructor].
  - destruct (IH (Z.min a x)) as (Hin & Hle & Hall).
    split; [|split].
    + destruct Hin as [Heq|Hin]; [|right; by right].
      rewrite Heq. destruct (Z.min_spec a x) as [[_ ->]|[_ ->]];
        [by left|right; left].
    + lia.
    + constructor; [lia|done].
Qed.

Lemma min_spec l m :
  Np.min l = Ok m → m ∈ l ∧ ∀ x, x ∈ l → m ≤ x.
Proof.
  destruct l as [|a l]; [done|]. simpl. intros [= <-].
  destruct (foldl_min_spec l a) as (Hin & Hle & Hall). split.
  - destruct Hin as [->|?]; [left|by right].
  - intros x [->|Hx]%elem_of_cons; [done|].
    by apply (proj1 (Forall_forall _ _) Hall).
Qed.

Lemma min_is_Ok l : l ≠ [] → ∃ m, Np.min l = Ok m.
Proof. destruct l; [done|]. by eexists. Qed.

Lemma min_unique l m :
  m ∈ l → (∀ x, x ∈ l → m ≤ x) → Np.min l = Ok m.
Proof.
  intros Hm Hle. destruct (min_is_Ok l) as [m' Hm']; [by intros ->; set_solver|].
  destruct (min_spec _ _ Hm') as [Hin' Hle'].
  rewrite Hm'. f_equal. pose proof (Hle _ Hin'). pose proof (Hle' _ Hm). lia.
Qed.

(** Two end years that coincide give a cadence of zero. *)
Lemma segment_duration_dup idx :
  ¬ NoDup idx → segment_duration_of idx = Ok 0.
Proof.
  intros Hd. unfold segment_duration_of. apply min_unique.
  - apply diff_dup; [apply sort_StronglySorted|].
    by rewrite sort_Permutation.
  - intros x Hx.
    by apply (proj1 (Forall_forall _ _) (diff_nonneg _ (sort_StronglySorted idx))).
Qed.

Lemma segment_duration_single y :
  segment_duration_of [y] = Raise (ValueError VE_empty_reduction).
Proof. reflexivity. Qed.

(** End years that are all different give the least gap between two of
    them. *)
Lemma segment_duration_nodup idx :
  NoDup idx → (2 ≤ length idx)%nat →
  ∃ c, segment_duration_of idx = Ok c ∧ 0 < c
    ∧ (∃ a b, a ∈ idx ∧ b ∈ idx ∧ b - a = c)
    ∧ (∀ a b, a ∈ idx → b ∈ idx → a ≠ b → c ≤ Z.abs (b - a)).
Proof.
  intros Hnd Hlen. unfold segment_duration_of.
  pose proof (sort_StronglySorted idx) as Hs.
  pose proof (sort_Permutation idx) as Hp.
  destruct (min_is_Ok (Np.diff (Np.sort idx))) as [c Hc].
  { intros Hnil. apply (f_equal length) in Hnil.
    rewrite diff_length, Hp in Hnil. simpl in Hnil. lia. }
  destruct (min_spec _ _ Hc) as [Hin Hle].
  exists c. split; [done|].
  assert (∀ a b, a ∈ idx → b ∈ idx → a < b → c ≤ b - a) as Hgap.
  { intros a b Ha Hb Hab. rewrite <-Hp in Ha, Hb.
    destruct (diff_gap _ a b Hs Ha Hb Hab) as (d & Hd & ?).
    pose proof (Hle d Hd). lia. }
  destruct (diff_elem _ _ Hin) as (a & b & Ha & Hb & Hab).
  rewrite Hp in Ha, Hb.
  assert (0 ≤ c).
  { by apply (proj1 (Forall_forall _ _) (diff_nonneg _ Hs)). }
  assert (c ≠ 0).
  { intros ->.
    assert (¬ NoDup (Np.sort idx)) as Hnn; [|by rewrite Hp in Hnn].
    clear -Hin Hs. revert Hin Hs.
    generalize (Np.sort idx) as l. clear idx.
    induction l as [|x [|y l] IH]; intros Hin Hs; [by apply elem_of_nil in Hin..|].
    rewrite diff_cons in Hin. apply elem_of_cons in Hin as [Heq|Hin].
    - intros Hnd. apply NoDup_cons in Hnd as [Hx _]. apply Hx.
      replace x with y by lia. left.
    - apply StronglySorted_cons in Hs as [_ Hs].
      intros Hnd. apply NoDup_cons in Hnd as [_ Hnd]. by apply (IH Hin Hs). }
  split; [lia|]. split; [by exists a, b|].
  intros a' b' Ha' Hb' Hne.
  destruct (Z.lt_total a' b') as [?|[?|?]]; [|done|].
  - pose proof (Hgap a' b' Ha' Hb'). lia.
  - pose proof (Hgap b' a' Hb' Ha'). lia.
Qed.

End cadence.

(** ** Scanning a directory *)

Section scanning.
Local Open Scope Z_scope.
Implicit Types (listing dates : list string) (st : counts).

Lemma bind_Ok {A B} (m : result A) (f : A → result B) b :
  m ≫= f = Ok b ↔ ∃ a, m = Ok a ∧ f a = Ok b.
Proof.
  destruct m as [a|e]; simpl; split.
  - intros H. by exists a.
  - by intros (a' & [= ->] & ?).
  - done.
  - by intros (a' & [=] & ?).
Qed.

Lemma mapM_Ok {A B} (f : A → result B) l ys :
  mapM f l = Ok ys ↔ Forall2 (λ x y, f x = Ok y) l ys.
Proof.
  revert ys. induction l as [|x l IH]; intros ys; simpl.
  - split; [intros [= <-]; constructor|by intros ->%Forall2_nil_inv_l].
  - rewrite bind_Ok. split.
    + intros (y & Hy & (ys' & Hys & [= <-])%bind_Ok).
      constructor; [done|by apply IH].
    + intros (y & ys' & Hy & Hys & ->)%Forall2_cons_inv_l.
      exists y. split; [done|]. apply bind_Ok. exists ys'.
      split; [by apply IH|done].
Qed.


Lemma scan_date_Ok listing st date st' :
  scan_date listing st date = Ok st' →
  ∃ y, end_year date = Ok y
    ∧ st' = mk_counts (indexes st ++ [y])
                      (<[y := Some (nfiles_raw listing date)]> (nfiles st)).
Proof.
  unfold scan_date, end_year.
  intros (b & _ & (db & _ & (e & He & (de & Hde & [= <-])%bind_Ok)%bind_Ok)
            %bind_Ok)%bind_Ok.
  exists (year de). by rewrite He; simpl; rewrite Hde.
Qed.

Lemma foldM_scan_date listing dates : ∀ st st',
  foldM (scan_date listing) st dates = Ok st' →
  ∃ ys, Forall2 (λ date y, end_year date = Ok y) dates ys
    ∧ indexes st' = indexes st ++ ys
    ∧ nfiles st' = record_counts listing (nfiles st) (zip dates ys).
Proof.
  induction dates as [|date dates IH]; intros st st'; simpl.
  - intros [= <-]. exists []. by rewrite app_nil_r.
  - intros (st1 & (y & Hy & ->)%scan_date_Ok & Hrest)%bind_Ok.
    destruct (IH _ _ Hrest) as (ys & Hys & Hidx & Hn). simpl in *.
    exists (y :: ys). split; [by constructor|].
    split; [by rewrite Hidx, <-app_assoc|done].
Qed.

Lemma find_dates_Ok listing dates :
  find_dates listing = Ok dates →
  NoDup dates ∧ ∀ t, t ∈ dates ↔ has_token listing t.
Proof.
  unfold find_dates.
  intros (fields & _ & (tokens & Htok%mapM_Ok & [= <-])%bind_Ok)%bind_Ok.
  split; [apply NoDup_remove_dups|].
  intros t. unfold Py.list_set, has_token. rewrite elem_of_remove_dups. split.
  - intros Ht. apply list_elem_of_lookup in Ht as [i Hi].
    destruct (Forall2_lookup_r _ _ _ _ _ Htok Hi) as (f & Hf & ?).
    exists f. split; [|done]. by apply list_elem_of_lookup_2 in Hf.
  - intros (f & Hf & Ht). apply list_elem_of_lookup in Hf as [i Hi].
    destruct (Forall2_lookup_l _ _ _ _ _ Htok Hi) as (t' & Ht' & Heq).
    rewrite Heq in Ht. injection Ht as <-.
    by apply list_elem_of_lookup_2 in Ht'.
Qed.

Lemma has_token_find_dates listing t :
  has_token listing t →
  (∃ e, find_dates listing = Raise e)
  ∨ ∃ dates, find_dates listing = Ok dates ∧ t ∈ dates.
Proof.
  intros Ht. destruct (find_dates listing) as [dates|e] eqn:Hd.
  - right. exists dates. split; [done|]. by apply (find_dates_Ok _ _ Hd).
  - left. by exists e.
Qed.

Lemma scan_Ok listing st :
  scan listing = Ok st →
  ∃ dates, NoDup dates ∧ (∀ t, t ∈ dates ↔ has_token listing t)
    ∧ Forall2 (λ date y, end_year date = Ok y) dates (indexes st)
    ∧ nfiles st = record_counts listing ∅ (zip dates (indexes st)).
Proof.
  unfold scan. intros (dates & Hd & Hf)%bind_Ok.
  destruct (find_dates_Ok _ _ Hd) as [Hnd Hin].
  destruct (foldM_scan_date _ _ _ _ Hf) as (ys & Hys & Hidx & Hn).
  simpl in *. subst ys. by exists dates.
Qed.

(** Two tokens that end in the same year leave a repeated end year. *)
Lemma shared_end_year_dup listing st t1 t2 y :
  scan listing = Ok st →
  has_token listing t1 → has_token listing t2 → t1 ≠ t2 →
  end_year t1 = Ok y → end_year t2 = Ok y →
  ¬ NoDup (indexes st).
Proof.
  intros (dates & Hnd & Hin & Hys & _)%scan_Ok H1%Hin H2%Hin Hne Hy1 Hy2 Hnd'.
  apply list_elem_of_lookup in H1 as [i Hi], H2 as [j Hj].
  destruct (Forall2_lookup_l _ _ _ _ _ Hys Hi) as (y1 & Hy1' & Heq1).
  destruct (Forall2_lookup_l _ _ _ _ _ Hys Hj) as (y2 & Hy2' & Heq2).
  rewrite Hy1 in Heq1. rewrite Hy2 in Heq2.
  injection Heq1 as <-. injection Heq2 as <-.
  pose proof (NoDup_lookup _ _ _ _ Hnd' Hy1' Hy2') as ->.
  rewrite Hi in Hj. by injection Hj.
Qed.

End scanning.

(** ** The series of a directory *)

Section series.
Local Open Scope Z_scope.
Implicit Types (listing dates : list string) (st : counts) (idx : list Z).

Global Instance key_le_trans : Transitive key_le.
Proof. intros a b c. unfold key_le. lia. Qed.
Global Instance key_le_total : Total key_le.
Proof. intros a b. unfold key_le. lia. Qed.


Lemma set_missing_lookup ys : ∀ m y,
  set_missing m ys !! y = if decide (y ∈ ys) then Some None else m !! y.
Proof.
  induction ys as [|x ys IH]; intros m y; [done|].
  change (set_missing m (x :: ys)) with (set_missing (<[x:=None]> m) ys).
  rewrite IH.
  destruct (decide (y ∈ ys)) as [Hin|Hnin];
    destruct (decide (y ∈ x :: ys)) as [Hin'|Hnin']; try done.
  - destruct Hnin'. by right.
  - apply elem_of_cons in Hin' as [->|?]; [|done]. apply lookup_insert_eq.
  - apply lookup_insert_ne. intros ->. apply Hnin'. left.
Qed.

Lemma fill_dates enddates expected : ∀ st printed,
  foldl (fill_date enddates) (st, printed) expected
  = let missing := filter (λ y, y ∉ enddates) expected in
    (mk_counts (indexes st ++ missing) (set_missing (nfiles st) missing),
     printed ++ missing).
Proof.
  induction expected as [|y expected IH]; intros st printed.
  - simpl. rewrite !app_nil_r. by destruct st.
  - cbn [foldl]. rewrite filter_cons.
    assert (fill_date enddates (st, printed) y
            = if decide (y ∉ enddates)
              then (mk_counts (indexes st ++ [y]) (<[y:=None]> (nfiles st)),
                    printed ++ [y])
              else (st, printed)) as ->.
    { unfold fill_date. destruct (decide (y ∈ enddates)).
      - rewrite bool_decide_true by done. by rewrite decide_False by (by intros ?).
      - rewrite bool_decide_false by done. by rewrite decide_True by done. }
    destruct (decide (y ∉ enddates)); rewrite IH; [|done].
    cbn [indexes nfiles]. cbv zeta. cbn [set_missing foldl].
    by rewrite <-!app_assoc.
Qed.

Lemma pd_Series_keys st : (pd_Series st).*1 = indexes st.
Proof.
  unfold pd_Series.
  induction (indexes st) as [|y l IH]; [done|]. by rewrite !fmap_cons, IH.
Qed.

Lemma sort_index_Permutation s : sort_index s ≡ₚ s.
Proof. apply merge_sort_Permutation. Qed.

Lemma sort_index_keys s : (sort_index s).*1 = Np.sort (s.*1).
Proof.
  symmetry. apply sort_unique.
  - by rewrite sort_index_Permutation.
  - apply (StronglySorted_fmap fst key_le Z.le); [done|].
    apply (StronglySorted_merge_sort key_le).
Qed.

(** The series returned: the years in increasing order, each with the
    count recorded for it. *)
Lemma sort_index_pd_Series st :
  sort_index (pd_Series st)
  = (λ y, (y, default None (nfiles st !! y))) <$> Np.sort (indexes st).
Proof.
  rewrite <-(pd_Series_keys st), <-sort_index_keys.
  set (f := λ y : Z, (y, default None (nfiles st !! y))).
  assert (Forall (λ p, p = f p.1) (sort_index (pd_Series st))) as Hall.
  { rewrite sort_index_Permutation. unfold pd_Series.
    apply Forall_fmap, Forall_forall. by intros. }
  induction Hall as [|p l Hp _ IH]; [done|].
  rewrite !fmap_cons. by rewrite <-IH, <-Hp.
Qed.

Lemma sort_nonempty idx : idx ≠ [] → Np.sort idx ≠ [].
Proof.
  intros Hne Hnil. apply Hne, Permutation_nil_r.
  by rewrite <-Hnil, sort_Permutation.
Qed.

Lemma first_year idx :
  idx ≠ [] →
  ∃ a, Py.index (Np.sort idx) 0 = Ok a ∧ a ∈ idx ∧ ∀ y, y ∈ idx → a ≤ y.
Proof.
  intros Hne%sort_nonempty.
  pose proof (sort_StronglySorted idx) as Hs.
  pose proof (sort_Permutation idx) as Hp.
  destruct (Np.sort idx) as [|a l]; [done|]. exists a.
  split; [done|]. split; [rewrite <-Hp; left|].
  intros y Hy. rewrite <-Hp in Hy.
  apply StronglySorted_cons in Hs as [Ha _].
  apply elem_of_cons in Hy as [->|Hy]; [done|].
  by apply (proj1 (Forall_forall _ _) Ha).
Qed.

Lemma last_year idx :
  idx ≠ [] →
  ∃ b, Py.index_last (Np.sort idx) = Ok b ∧ b ∈ idx ∧ ∀ y, y ∈ idx → y ≤ b.
Proof.
  intros Hne%sort_nonempty.
  pose proof (sort_StronglySorted idx) as Hs.
  pose proof (sort_Permutation idx) as Hp.
  destruct (Np.sort idx) as [|a l _] using rev_ind; [done|].
  exists a. unfold Py.index_last. rewrite last_snoc.
  split; [done|]. split; [rewrite <-Hp; apply elem_of_app; right; left|].
  intros y Hy. rewrite <-Hp in Hy.
  apply StronglySorted_app in Hs as (Hla & _ & _).
  apply elem_of_app in Hy as [Hy|Hy%list_elem_of_singleton]; [|by subst].
  apply Hla; [done|left].
Qed.

Lemma create_pp_series_scan_Raise listing sy ey e :
  scan listing = Raise e → create_pp_series listing sy ey = Raise e.
Proof. intros H. unfold create_pp_series. by rewrite H. Qed.


Lemma range_start_Ok idx sy : idx ≠ [] → ∃ a, range_start idx sy = Ok a.
Proof.
  intros Hne. destruct sy as [y|]; [by exists y|].
  destruct (first_year idx Hne) as (a & ? & _). by exists a.
Qed.
Lemma range_end_Ok idx ey : idx ≠ [] → ∃ a, range_end idx ey = Ok a.
Proof.
  intros Hne. destruct ey as [y|]; [by exists y|].
  destruct (last_year idx Hne) as (a & ? & _). by exists a.
Qed.

Lemma create_pp_series_dup listing st sy ey :
  scan listing = Ok st → ¬ NoDup (indexes st) →
  create_pp_series listing sy ey = Raise (ValueError VE_arange).
Proof.
  intros Hscan Hdup. unfold create_pp_series. rewrite Hscan. simpl.
  rewrite (segment_duration_dup _ Hdup). simpl.
  assert (indexes st ≠ []) as Hne.
  { intros Hnil. apply Hdup. rewrite Hnil. constructor. }
  destruct (range_start_Ok _ sy Hne) as [a Ha].
  destruct (range_end_Ok _ ey Hne) as [b Hb].
  unfold range_start, range_end in *. rewrite Ha. simpl. rewrite Hb. done.
Qed.

Lemma create_pp_series_one listing st sy ey :
  scan listing = Ok st → (length (indexes st) ≤ 1)%nat →
  create_pp_series listing sy ey = Raise (ValueError VE_empty_reduction).
Proof.
  intros Hscan Hlen. unfold create_pp_series. rewrite Hscan. simpl.
  destruct (indexes st) as [|y [|??]]; [done..|simpl in Hlen; lia].
Qed.

Lemma create_pp_series_Ok listing st sy ey c start end_ expected :
  scan listing = Ok st →
  segment_duration_of (indexes st) = Ok c →
  range_start (indexes st) sy = Ok start →
  range_end (indexes st) ey = Ok end_ →
  Np.arange start (end_ + c) c = Ok expected →
  let missing := filter (λ y, y ∉ indexes st) expected in
  create_pp_series listing sy ey
  = Ok ((λ y, (y, default None (set_missing (nfiles st) missing !! y)))
          <$> Np.sort (indexes st ++ missing),
        missing).
Proof.
  intros Hscan Hc Hstart Hend Hexp missing.
  unfold create_pp_series. rewrite Hscan. simpl. rewrite Hc. simpl.
  unfold range_start, range_end in *. rewrite Hstart. simpl.
  rewrite Hend. simpl. rewrite Hexp. simpl.
  rewrite fill_dates. simpl.
  assert (filter (λ y, y ∉ Np.sort (indexes st)) expected = missing) as ->.
  { apply list_filter_iff. intros y. by rewrite sort_Permutation. }
  by rewrite sort_index_pd_Series.
Qed.

Lemma arange_elem start stop step l y :
  0 < step → Np.arange start stop step = Ok l →
  y ∈ l ↔ ∃ k, 0 ≤ k ∧ y = start + k * step ∧ y < stop.
Proof.
  intros Hstep. unfold Np.arange.
  rewrite (proj2 (Z.eqb_neq step 0)) by lia. intros [= <-].
  rewrite list_elem_of_fmap. setoid_rewrite elem_of_seq.
  set (n := - ((- (stop - start)) `div` step)).
  assert (∀ k, 0 ≤ k → (k < n ↔ start + k * step < stop)) as Hn.
  { intros k Hk. subst n.
    pose proof (Z.div_mod (- (stop - start)) step ltac:(lia)) as Hdm.
    pose proof (Z.mod_pos_bound (- (stop - start)) step Hstep) as Hr.
    revert Hdm Hr.
    generalize ((- (stop - start)) `div` step) as q.
    generalize ((- (stop - start)) `mod` step) as r.
    intros r q Hdm Hr. split; intros H.
    - assert ((k + 1) * step ≤ (- q) * step)
        by (apply Z.mul_le_mono_nonneg_r; lia).
      lia.
    - apply (Z.mul_lt_mono_pos_r step); lia. }
  split.
  - intros (i & -> & _ & Hi). exists (Z.of_nat i).
    split; [lia|]. split; [done|]. apply Hn; lia.
  - intros (k & Hk & -> & Hlt). exists (Z.to_nat k).
    rewrite Z2Nat.id by done. split; [done|]. split; [lia|].
    apply Hn in Hlt; lia.
Qed.

Lemma arange_Ok start stop step :
  step ≠ 0 → ∃ l, Np.arange start stop step = Ok l.
Proof.
  intros Hstep. unfold Np.arange.
  rewrite (proj2 (Z.eqb_neq step 0)) by done. by eexists.
Qed.


Lemma sort_proper l l' : l ≡ₚ l' → Np.sort l = Np.sort l'.
Proof.
  intros Hp. apply sort_unique; [|apply sort_StronglySorted].
  by rewrite Hp, sort_Permutation.
Qed.

Lemma record_counts_notin listing dys : ∀ m y,
  y ∉ dys.*2 → record_counts listing m dys !! y = m !! y.
Proof.
  induction dys as [|[t y0] dys IH]; intros m y Hy; [done|].
  change (record_counts listing m ((t, y0) :: dys))
    with (record_counts listing (<[y0 := Some (nfiles_raw listing t)]> m) dys).
  rewrite fmap_cons in Hy. apply not_elem_of_cons in Hy as [Hne Hy].
  rewrite IH by done. by apply lookup_insert_ne.
Qed.

Lemma record_counts_lookup listing dates : ∀ ys m i t y,
  length dates = length ys → NoDup ys →
  dates !! i = Some t → ys !! i = Some y →
  record_counts listing m (zip dates ys) !! y
  = Some (Some (nfiles_raw listing t)).
Proof.
  induction dates as [|t0 dates IH]; intros [|y0 ys] m i t y Hlen Hnd Ht Hy;
    try done.
  apply NoDup_cons in Hnd as [Hy0 Hnd]. simpl in Hlen.
  change (record_counts listing m (zip (t0 :: dates) (y0 :: ys)))
    with (record_counts listing (<[y0 := Some (nfiles_raw listing t0)]> m)
            (zip dates ys)).
  destruct i as [|i]; simpl in Ht, Hy.
  - injection Ht as ->. injection Hy as ->.
    rewrite record_counts_notin; [apply lookup_insert_eq|].
    rewrite snd_zip by lia. done.
  - apply (IH ys _ i); [lia|done..].
Qed.

(** The count recorded for the end year of a token, when no two tokens
    end in the same year. *)
Lemma scan_count listing st t y :
  scan listing = Ok st → NoDup (indexes st) →
  has_token listing t → end_year t = Ok y →
  y ∈ indexes st ∧ nfiles st !! y = Some (Some (nfiles_raw listing t)).
Proof.
  intros (dates & Hnd & Hin & Hys & Hn)%scan_Ok Hnd' Ht%Hin Hy.
  apply list_elem_of_lookup in Ht as [i Hi].
  destruct (Forall2_lookup_l _ _ _ _ _ Hys Hi) as (y' & Hy' & Heq).
  rewrite Hy in Heq. injection Heq as <-.
  split; [by apply list_elem_of_lookup_2 in Hy'|].
  rewrite Hn. apply (record_counts_lookup _ _ _ _ i); try done.
  by apply Forall2_length in Hys.
Qed.



Lemma series_elem (g : Z → option nat) (l : list Z) y v :
  (y, v) ∈ (λ y, (y, g y)) <$> l ↔ y ∈ l ∧ v = g y.
Proof.
  rewrite list_elem_of_fmap. split.
  - by intros (y' & [= -> ->] & ?).
  - intros [? ->]. by exists y.
Qed.

Lemma series_keys (g : Z → option nat) (l : list Z) : ((λ y, (y, g y)) <$> l).*1 = l.
Proof. induction l as [|y l IH]; [done|]. by rewrite !fmap_cons, IH. Qed.

(** Claim C8. When two different segment tokens of the files of a directory
    end in the same calendar year, [create_pp_series] returns no series,
    whatever the overrides: if every token decodes, the repeated end year
    makes the least gap 0 and [np.arange] fails on the zero step, also when
    other end years are present. *)
Theorem shared_end_year_no_series listing startyear endyear t1 t2 y :
  has_token listing t1 → has_token listing t2 → t1 ≠ t2 →
  end_year t1 = Ok y → end_year t2 = Ok y →
  is_ok (create_pp_series listing startyear endyear) = false
  ∧ ∀ st, scan listing = Ok st →
      segment_duration_of (indexes st) = Ok 0
      ∧ create_pp_series listing startyear endyear
        = Raise (ValueError VE_arange).
Proof.
  intros H1 H2 Hne Hy1 Hy2.
  assert (∀ st, scan listing = Ok st →
      segment_duration_of (indexes st) = Ok 0
      ∧ create_pp_series listing startyear endyear
        = Raise (ValueError VE_arange)) as Hst.
  { intros st Hscan.
    pose proof (shared_end_year_dup _ _ _ _ _ Hscan H1 H2 Hne Hy1 Hy2) as Hdup.
    split; [by apply segment_duration_dup|by eapply create_pp_series_dup]. }
  split; [|done].
  destruct (scan listing) as [st|e] eqn:Hscan.
  - by rewrite (proj2 (Hst st eq_refl)).
  - by rewrite (create_pp_series_scan_Raise _ _ _ _ Hscan).
Qed.

Lemma shared_end_year_no_series_witness :
  is_ok (create_pp_series dir_shared_end_year None None) = false
  ∧ ∀ st, scan dir_shared_end_year = Ok st →
      segment_duration_of (indexes st) = Ok 0
      ∧ create_pp_series dir_shared_end_year None None
        = Raise (ValueError VE_arange).
Proof.
  apply (shared_end_year_no_series dir_shared_end_year None None
           "200101-201012" "200601-201012" 2010).
  - exists "ocean.200101-201012.so.nc". split; [compute_done|reflexivity].
  - exists "ocean.200601-201012.so.nc". split; [compute_done|reflexivity].
  - discriminate.
  - reflexivity.
  - reflexivity.
Defined.



Lemma all_equal_dup idx y :
  (∀ y', y' ∈ idx → y' = y) → (2 ≤ length idx)%nat → ¬ NoDup idx.
Proof.
  intros Hall Hlen Hnd. destruct idx as [|a [|b idx]]; simpl in Hlen; try lia.
  apply NoDup_cons in Hnd as [Ha _]. apply Ha.
  rewrite (Hall a) by left. rewrite (Hall b) by (right; left). left.
Qed.

(** Claim C3, amended. In a directory whose files give exactly one end
    year [create_pp_series] returns no series. With a single segment token
    the cadence cannot be computed (the minimum of an empty array of
    differences: [InsufficientSegmentEvidence]); with several tokens ending
    in that year a cadence of 0 is computed and [np.arange] fails on it. *)
Theorem one_end_year_no_series listing st y startyear endyear :
  scan listing = Ok st →
  indexes st ≠ [] → (∀ y', y' ∈ indexes st → y' = y) →
  is_ok (create_pp_series listing startyear endyear) = false
  ∧ ((∀ t t', has_token listing t → has_token listing t' → t = t') →
     create_pp_series listing startyear endyear
     = Raise InsufficientSegmentEvidence)
  ∧ ((∃ t t', has_token listing t ∧ has_token listing t' ∧ t ≠ t') →
     segment_duration_of (indexes st) = Ok 0
     ∧ create_pp_series listing startyear endyear
       = Raise (ValueError VE_arange)).
Proof.
  intros Hscan Hne Hall.
  destruct (scan_Ok _ _ Hscan) as (dates & Hnd & Hin & Hys & _).
  pose proof (Forall2_length _ _ _ Hys) as Hlen.
  assert ((∀ t t', has_token listing t → has_token listing t' → t = t') →
     create_pp_series listing startyear endyear
     = Raise InsufficientSegmentEvidence) as Hone.
  { intros Hsame. apply (create_pp_series_one _ st); [done|].
    rewrite <-Hlen. destruct dates as [|t [|t' dates]]; simpl; try lia.
    apply NoDup_cons in Hnd as [Ht _]. destruct Ht.
    rewrite (Hsame t t'); [left|apply Hin; left|apply Hin; right; left]. }
  assert ((∃ t t', has_token listing t ∧ has_token listing t' ∧ t ≠ t') →
     segment_duration_of (indexes st) = Ok 0
     ∧ create_pp_series listing startyear endyear
       = Raise (ValueError VE_arange)) as Htwo.
  { intros (t & t' & Ht%Hin & Ht'%Hin & Hne').
    assert (¬ NoDup (indexes st)) as Hdup.
    { apply (all_equal_dup _ y Hall). rewrite <-Hlen.
      destruct dates as [|a [|b dates]]; simpl; try lia.
      - by apply elem_of_nil in Ht.
      - apply list_elem_of_singleton in Ht, Ht'. congruence. }
    split; [by apply segment_duration_dup|by eapply create_pp_series_dup]. }
  split; [|done].
  destruct dates as [|a [|b dates]].
  - apply Forall2_nil_inv_l in Hys. done.
  - rewrite Hone; [done|]. intros t t' Ht%Hin Ht'%Hin.
    apply list_elem_of_singleton in Ht, Ht'. congruence.
  - destruct Htwo as [_ ->]; [|done]. exists a, b.
    split; [apply Hin; left|]. split; [apply Hin; right; left|].
    intros ->. apply NoDup_cons in Hnd as [Ha _]. apply Ha. left.
Qed.

Lemma scan_dir_one_token :
  ∃ st, scan dir_one_token = Ok st ∧ indexes st = [2010].
Proof. eexists. split; vm_compute; reflexivity. Defined.

Lemma one_end_year_no_series_witness :
  is_ok (create_pp_series dir_one_token None None) = false
  ∧ ((∀ t t', has_token dir_one_token t → has_token dir_one_token t' →
        t = t') →
     create_pp_series dir_one_token None None
     = Raise InsufficientSegmentEvidence).
Proof.
  destruct scan_dir_one_token as (st & Hscan & Hidx).
  destruct (one_end_year_no_series dir_one_token st 2010 None None Hscan)
    as (H1 & H2 & _).
  - rewrite Hidx. discriminate.
  - rewrite Hidx. by intros y' ->%list_elem_of_singleton.
  - by split.
Defined.

Lemma one_end_year_counterexample :
  ∃ st, scan dir_one_end_year = Ok st
    ∧ (∀ y, y ∈ indexes st ↔ y = 2010)
    ∧ segment_duration_of (indexes st) = Ok 0
    ∧ create_pp_series dir_one_end_year None None
      = Raise (ValueError VE_arange)
    ∧ create_pp_series dir_one_end_year None None
      ≠ Raise InsufficientSegmentEvidence.
Proof.
  eexists. split; [vm_compute; reflexivity|].
  split; [|split; [reflexivity|split; [reflexivity|discriminate]]].
  intros y. cbn [indexes]. rewrite !elem_of_cons, elem_of_nil. naive_solver.
Qed.



(** What [create_pp_series] returns when no two tokens end in the same
    year and there are at least two of them. *)
Lemma create_pp_series_nodup listing st startyear endyear :
  scan listing = Ok st → NoDup (indexes st) → (2 ≤ length (indexes st))%nat →
  ∃ c start end_ expected ser,
    segment_duration_of (indexes st) = Ok c ∧ 0 < c
    ∧ range_start (indexes st) startyear = Ok start
    ∧ range_end (indexes st) endyear = Ok end_
    ∧ Np.arange start (end_ + c) c = Ok expected
    ∧ create_pp_series listing startyear endyear
      = Ok (ser, filter (λ y, y ∉ indexes st) expected)
    ∧ ser.*1 = Np.sort (indexes st ++ filter (λ y, y ∉ indexes st) expected)
    ∧ (∀ y, y ∈ expected → y ∉ indexes st → (y, None) ∈ ser)
    ∧ (∀ t y, has_token listing t → end_year t = Ok y →
         (y, Some (nfiles_raw listing t)) ∈ ser).
Proof.
  intros Hscan Hnd Hlen.
  destruct (segment_duration_nodup _ Hnd Hlen) as (c & Hc & Hpos & _).
  assert (indexes st ≠ []) as Hne by (intros Hnil; rewrite Hnil in Hlen; simpl in Hlen; lia).
  destruct (range_start_Ok _ startyear Hne) as [start Hstart].
  destruct (range_end_Ok _ endyear Hne) as [end_ Hend].
  destruct (arange_Ok start (end_ + c) c) as [expected Hexp]; [lia|].
  pose proof (create_pp_series_Ok _ _ _ _ _ _ _ _ Hscan Hc Hstart Hend Hexp)
    as Hrun. cbv zeta in Hrun.
  eexists c, start, end_, expected, _.
  do 5 (split; [done|]). split; [exact Hrun|].
  split; [apply series_keys|]. split.
  - intros y Hy Hny. apply series_elem. split.
    + rewrite sort_Permutation. apply elem_of_app. right.
      by apply list_elem_of_filter.
    + rewrite set_missing_lookup, decide_True; [done|].
      by apply list_elem_of_filter.
  - intros t y Ht Hy.
    destruct (scan_count _ _ _ _ Hscan Hnd Ht Hy) as [Hin Hcount].
    apply series_elem. split.
    + rewrite sort_Permutation. apply elem_of_app. by left.
    + rewrite set_missing_lookup, decide_False, Hcount; [done|].
      by intros [? _]%list_elem_of_filter.
Qed.

(** Claim C1, amended. When the segment tokens of a directory end in years
    that are all different, at least two of them, the cadence computed is
    positive, is the difference of two end years and is at most the
    difference of any two different end years; the series returned holds the
    end years found and the years stepped from the start by the cadence,
    those not found with NaN. For the end years 2010, 2030 and 2040 the
    cadence is 10 and the series holds 2020 with NaN. *)
Theorem cadence_is_least_gap listing st :
  scan listing = Ok st → NoDup (indexes st) → (2 ≤ length (indexes st))%nat →
  ∃ c, segment_duration_of (indexes st) = Ok c ∧ 0 < c
    ∧ (∃ a b, a ∈ indexes st ∧ b ∈ indexes st ∧ b - a = c)
    ∧ (∀ a b, a ∈ indexes st → b ∈ indexes st → a ≠ b → c ≤ Z.abs (b - a))
    ∧ (∀ startyear endyear, ∃ start end_ expected ser printed,
         range_start (indexes st) startyear = Ok start
         ∧ range_end (indexes st) endyear = Ok end_
         ∧ Np.arange start (end_ + c) c = Ok expected
         ∧ (∀ y, y ∈ expected
                 ↔ ∃ k, 0 ≤ k ∧ y = start + k * c ∧ y < end_ + c)
         ∧ create_pp_series listing startyear endyear = Ok (ser, printed)
         ∧ (∀ y, y ∈ ser.*1 ↔ y ∈ indexes st ∨ y ∈ expected)
         ∧ (∀ y, y ∈ expected → y ∉ indexes st → (y, None) ∈ ser))
    ∧ (indexes st ≡ₚ [2010; 2030; 2040] →
       c = 10
       ∧ ∃ ser printed,
           create_pp_series listing None None = Ok (ser, printed)
           ∧ (2020, None) ∈ ser).
Proof.
  intros Hscan Hnd Hlen.
  destruct (segment_duration_nodup _ Hnd Hlen) as (c & Hc & Hpos & Hex & Hleast).
  exists c. do 4 (split; [done|]). split.
  - intros startyear endyear.
    destruct (create_pp_series_nodup _ _ startyear endyear Hscan Hnd Hlen)
      as (c' & start & end_ & expected & ser & Hc' & _ & Hstart & Hend & Hexp
          & Hrun & Hkeys & Hmiss & _).
    rewrite Hc in Hc'. injection Hc' as <-.
    eexists start, end_, expected, ser, _. do 3 (split; [done|]).
    split; [intros y; by apply arange_elem|]. split; [done|].
    split; [|done]. intros y.
    rewrite Hkeys, sort_Permutation, elem_of_app, list_elem_of_filter.
    destruct (decide (y ∈ indexes st)); naive_solver.
  - intros Hperm.
    assert (Np.sort (indexes st) = [2010; 2030; 2040]) as Hsort.
    { apply sort_unique; [done|]. repeat constructor; lia. }
    assert (c = 10) as ->.
    { unfold segment_duration_of in Hc. rewrite Hsort in Hc. by injection Hc. }
    split; [done|].
    destruct (create_pp_series_nodup _ _ None None Hscan Hnd Hlen)
      as (c' & start & end_ & expected & ser & Hc' & _ & Hstart & Hend & Hexp
          & Hrun & _ & Hmiss & _).
    rewrite Hc in Hc'. injection Hc' as <-.
    unfold range_start, range_end in *. rewrite Hsort in Hstart, Hend.
    injection Hstart as <-. injection Hend as <-. injection Hexp as <-.
    eexists ser, _. split; [done|]. apply Hmiss.
    + right; left.
    + rewrite Hperm. rewrite !elem_of_cons, elem_of_nil. lia.
Qed.

Lemma scan_dir_2010_2030_2040 :
  ∃ st, scan dir_2010_2030_2040 = Ok st ∧ indexes st = [2010; 2030; 2040].
Proof. eexists. split; vm_compute; reflexivity. Defined.

Lemma cadence_is_least_gap_witness :
  ∃ st, scan dir_2010_2030_2040 = Ok st
    ∧ segment_duration_of (indexes st) = Ok 10
    ∧ ∃ ser printed,
        create_pp_series dir_2010_2030_2040 None None = Ok (ser, printed)
        ∧ (2020, None) ∈ ser.
Proof.
  destruct scan_dir_2010_2030_2040 as (st & Hscan & Hidx).
  destruct (cadence_is_least_gap dir_2010_2030_2040 st Hscan)
    as (c & Hc & _ & _ & _ & _ & Hex).
  - rewrite Hidx. compute_done.
  - rewrite Hidx. simpl. lia.
  - destruct Hex as [-> Hser]; [by rewrite Hidx|].
    exists st. by repeat split.
Defined.

Lemma cadence_counterexample :
  ∃ st, scan dir_shared_end_year = Ok st
    ∧ 2010 ∈ indexes st ∧ 2020 ∈ indexes st
    ∧ (∀ a b, a ∈ indexes st → b ∈ indexes st → a ≠ b → 10 ≤ Z.abs (b - a))
    ∧ segment_duration_of (indexes st) = Ok 0
    ∧ create_pp_series dir_shared_end_year None None
      = Raise (ValueError VE_arange).
Proof.
  eexists. split; [vm_compute; reflexivity|]. cbn [indexes].
  split; [left|]. split; [right; right; left|].
  split; [|split; reflexivity].
  intros a b. rewrite !elem_of_cons, !elem_of_nil. lia.
Qed.







End series.

(** ** Labels of the directories *)

Section labels.
Local Open Scope Z_scope.













Lemma contains_dec s sub : contains s sub ∨ ¬ contains s sub.
Proof.
  destruct (decide (Py.find s sub = -1)) as [Hf|Hf].
  - right. by apply find_neg.
  - left. destruct (Py.find_from 0 sub s) as [n|] eqn:Hn.
    + apply find_from_Some in Hn as (pre & post & -> & _). by exists pre, post.
    + unfold Py.find in Hf. by rewrite Hn in Hf.
Qed.






End labels.

(** ** Directories by period *)

Section periods.
Local Open Scope Z_scope.
Implicit Types (dict : gmap string (list string)) (p d : string).

Lemma bucket_elem all_dirs p d :
  d ∈ bucket all_dirs p ↔ d ∈ all_dirs ∧ contains d p.
Proof.
  unfold bucket. rewrite list_elem_of_filter, find_neg.
  destruct (contains_dec d p); naive_solver.
Qed.

Lemma add_dirs p dirs : ∀ dict l0,
  dict !! p = Some l0 →
  foldl (add_dir p) dict dirs = <[p := l0 ++ bucket dirs p]> dict.
Proof.
  induction dirs as [|d dirs IH]; intros dict l0 Hp.
  - simpl. unfold bucket. rewrite filter_nil, app_nil_r.
    by rewrite insert_id.
  - cbn [foldl]. unfold add_dir at 2, bucket. rewrite filter_cons.
    destruct (decide (Py.find d p ≠ -1)) as [Hf|Hf].
    + rewrite bool_decide_true by done.
      rewrite (IH _ (l0 ++ [d])).
      * rewrite <-app_assoc. simpl.
        apply map_eq. intros k. destruct (decide (k = p)) as [->|Hne].
        -- by rewrite !lookup_insert_eq.
        -- rewrite !lookup_insert_ne by done. by apply lookup_alter_ne.
      * by rewrite lookup_alter_eq, Hp.
    + rewrite bool_decide_false by done. by apply IH.
Qed.

Lemma add_period_insert all_dirs dict p :
  add_period all_dirs dict p = <[p := bucket all_dirs p]> dict.
Proof.
  unfold add_period. rewrite (add_dirs p all_dirs _ []).
  - by rewrite insert_insert_eq.
  - apply lookup_insert_eq.
Qed.

Lemma add_periods_lookup all_dirs periods p : ∀ dict,
  foldl (add_period all_dirs) dict periods !! p
  = if decide (p ∈ periods) then Some (bucket all_dirs p) else dict !! p.
Proof.
  induction periods as [|q periods IH]; intros dict; [done|].
  cbn [foldl]. rewrite IH, add_period_insert.
  destruct (decide (p ∈ periods)) as [Hin|Hnin];
    destruct (decide (p ∈ q :: periods)) as [Hin'|Hnin']; try done.
  - destruct Hnin'. by right.
  - apply elem_of_cons in Hin' as [->|?]; [|done]. apply lookup_insert_eq.
  - apply lookup_insert_ne. intros ->. apply Hnin'. left.
Qed.

Lemma contains_trans s t u : contains s t → contains t u → contains s u.
Proof.
  intros (a & b & ->) (c & e & ->). exists (a +:+ c), (e +:+ b).
  by rewrite !str_app_assoc.
Qed.

Lemma slice_from_suffix n s : ∃ pre, s = pre +:+ Py.slice_from n s.
Proof.
  revert s. induction n as [|n IH]; intros s; [by exists ""|].
  destruct s as [|c s]; [by exists ""|].
  destruct (IH s) as [pre Hpre]. exists (String c pre).
  simpl. by rewrite str_app_cons, <-Hpre.
Qed.

Lemma contains_basename d : contains d (Posixpath.basename d).
Proof.
  unfold Posixpath.basename.
  destruct (slice_from_suffix (Posixpath.after_last_sep d) d) as [pre Hpre].
  exists pre, "". by rewrite str_app_nil_r.
Qed.

(** Claim C9. In the dictionary returned by [all_dirs_model] the keys are
    the periods of the directories found, and a directory is in the list
    of a period exactly when the period occurs somewhere in its path. So
    the lists need not be disjoint: the list of a period contains the list
    of every period it is a part of, the directories of "15yr" are all in
    the list of "5yr". *)
Theorem buckets_by_substring all_files ftype dict :
  all_dirs_model all_files ftype = Ok dict →
  let all_dirs := Py.list_set (Posixpath.dirname <$> all_files) in
  (∀ p, is_Some (dict !! p) ↔ ∃ d, d ∈ all_dirs ∧ period_of ftype d = Ok p)
  ∧ (∀ p l d, dict !! p = Some l → d ∈ l ↔ d ∈ all_dirs ∧ contains d p)
  ∧ (∀ p q lp lq, dict !! p = Some lp → dict !! q = Some lq →
       contains q p → lq ⊆ lp)
  ∧ (∀ l5 l15, dict !! "5yr" = Some l5 → dict !! "15yr" = Some l15 →
       l15 ⊆ l5)
  ∧ (ftype ≠ "av" → ∀ d l5, d ∈ all_dirs → Posixpath.basename d = "15yr" →
       dict !! "5yr" = Some l5 →
       d ∈ l5 ∧ ∃ l15, dict !! "15yr" = Some l15 ∧ d ∈ l15).
Proof.
  intros Hrun all_dirs. unfold all_dirs_model in Hrun. fold all_dirs in Hrun.
  apply bind_Ok in Hrun as (periods & Hper%mapM_Ok & [= <-]).
  assert (∀ p, p ∈ Py.list_set periods
               ↔ ∃ d, d ∈ all_dirs ∧ period_of ftype d = Ok p) as Hkeys.
  { intros p. unfold Py.list_set at 1. rewrite elem_of_remove_dups. split.
    - intros [i Hi]%list_elem_of_lookup.
      destruct (Forall2_lookup_r _ _ _ _ _ Hper Hi) as (d & Hd & ?).
      exists d. split; [by apply list_elem_of_lookup_2 in Hd|done].
    - intros (d & [i Hi]%list_elem_of_lookup & Hp).
      destruct (Forall2_lookup_l _ _ _ _ _ Hper Hi) as (p' & Hp' & Heq).
      rewrite Hp in Heq. injection Heq as <-.
      by apply list_elem_of_lookup_2 in Hp'. }
  assert (∀ p l, foldl (add_period all_dirs) ∅ (Py.list_set periods) !! p
                 = Some l → l = bucket all_dirs p) as Hbucket.
  { intros p l. rewrite add_periods_lookup. case_decide; [|done].
    by intros [= <-]. }
  assert (∀ p q lp lq,
    foldl (add_period all_dirs) ∅ (Py.list_set periods) !! p = Some lp →
    foldl (add_period all_dirs) ∅ (Py.list_set periods) !! q = Some lq →
    contains q p → lq ⊆ lp) as Hsub.
  { intros p q lp lq ->%Hbucket ->%Hbucket Hqp d.
    rewrite !bucket_elem. intros [? ?]. split; [done|].
    by apply (contains_trans _ q). }
  split; [|split; [|split; [|split]]].
  - intros p. rewrite <-Hkeys, add_periods_lookup.
    case_decide; [by split; [|eexists]|].
    rewrite lookup_empty. split; [by intros []|done].
  - intros p l d ->%Hbucket. apply bucket_elem.
  - done.
  - intros l5 l15 H5 H15. apply (Hsub _ _ _ _ H5 H15). by exists "1", "".
  - intros Hts d l5 Hd Hbase H5.
    assert (period_of ftype d = Ok "15yr") as Hp.
    { unfold period_of. by rewrite bool_decide_false, Hbase. }
    assert (contains d "15yr") as Hc.
    { rewrite <-Hbase. apply contains_basename. }
    split.
    + apply Hbucket in H5 as ->. apply bucket_elem. split; [done|].
      apply (contains_trans _ "15yr"); [done|]. by exists "1", "".
    + exists (bucket all_dirs "15yr"). split; [|by apply bucket_elem].
      rewrite add_periods_lookup, decide_True; [done|].
      apply Hkeys. by exists d.
Qed.

Lemma buckets_by_substring_witness :
  ∃ dict,
    all_dirs_model ["/a/pp/ocean/ts/annual/5yr/ocean.200101-200512.so.nc";
                    "/a/pp/ocean/ts/annual/15yr/ocean.200101-201512.so.nc"]
                   "ts" = Ok dict
    ∧ dict !! "5yr" = Some ["/a/pp/ocean/ts/annual/5yr";
                            "/a/pp/ocean/ts/annual/15yr"]
    ∧ dict !! "15yr" = Some ["/a/pp/ocean/ts/annual/15yr"]
    ∧ ∀ l5 l15, dict !! "5yr" = Some l5 → dict !! "15yr" = Some l15 →
        l15 ⊆ l5.
Proof.
  eexists. split; [vm_compute; reflexivity|].
  split; [reflexivity|]. split; [reflexivity|].
  refine (proj1 (proj2 (proj2 (proj2 (buckets_by_substring
    ["/a/pp/ocean/ts/annual/5yr/ocean.200101-200512.so.nc";
     "/a/pp/ocean/ts/annual/15yr/ocean.200101-201512.so.nc"] "ts" _ _))))).
  vm_compute. reflexivity.
Defined.

End periods.

(** ** Properties of the experiment *)

Section properties.

Lemma finditer_from_shift c s : ∀ i,
  Py.finditer_from (S i) c s = S <$> Py.finditer_from i c s.
Proof.
  induction s as [|a s IH]; intros i; [done|]. simpl.
  destruct (Ascii.eqb a c); rewrite IH; done.
Qed.

Lemma finditer_from_app c a rest : ∀ i,
  Py.finditer_from i c a = [] →
  Py.finditer_from i c (a +:+ String c rest)
  = (i + String.length a) :: Py.finditer_from (S (i + String.length a)) c rest.
Proof.
  induction a as [|x a IH]; intros i Ha.
  - rewrite str_app_nil_l. simpl. rewrite Ascii.eqb_refl.
    by rewrite Nat.add_0_r.
  - rewrite str_app_cons. simpl in *.
    destruct (Ascii.eqb x c); [done|].
    rewrite (IH _ Ha). f_equal; [lia|f_equal; lia].
Qed.

Lemma finditer_from_length c s i :
  length (Py.finditer_from i c s) = length (Py.finditer_from 0 c s).
Proof.
  induction i as [|i IH]; [done|].
  by rewrite finditer_from_shift, length_fmap.
Qed.

Lemma hyphens_cons x s :
  hyphens (String x s)
  = if Ascii.eqb x "-" then S (hyphens s) else hyphens s.
Proof.
  unfold hyphens, Py.finditer. simpl.
  destruct (Ascii.eqb x "-"); simpl; by rewrite finditer_from_length.
Qed.

Lemma hyphens_0 s : hyphens s = 0 ↔ Py.finditer "-" s = [].
Proof. unfold hyphens. by destruct (Py.finditer "-" s). Qed.

Lemma split_first_hyphen s :
  1 ≤ hyphens s →
  ∃ a rest, s = a +:+ String "-" rest ∧ hyphens a = 0
    ∧ hyphens s = S (hyphens rest).
Proof.
  induction s as [|x s IH]; [unfold hyphens; simpl; lia|].
  rewrite hyphens_cons. destruct (Ascii.eqb x "-") eqn:Hx.
  - intros _. apply Ascii.eqb_eq in Hx as ->. by exists "", s.
  - intros (a & rest & -> & Ha & Hn)%IH. exists (String x a), rest.
    split; [done|]. by rewrite hyphens_cons, Hx.
Qed.

Lemma second_hyphen a b c :
  hyphens a = 0 → hyphens b = 0 →
  Py.finditer "-" (a +:+ "-" +:+ b +:+ "-" +:+ c) !! 1
  = Some (String.length (a +:+ "-" +:+ b)).
Proof.
  intros Ha%hyphens_0 Hb%hyphens_0. unfold Py.finditer in *.
  change ("-" +:+ b +:+ "-" +:+ c) with (String "-" (b +:+ String "-" c)).
  rewrite (finditer_from_app _ _ _ _ Ha). cbn [lookup list_lookup].
  assert (Py.finditer_from (S (0 + String.length a)) "-" b = []) as Hb'.
  { apply length_zero_iff_nil. rewrite finditer_from_length.
    by rewrite Hb. }
  rewrite (finditer_from_app _ _ _ _ Hb'). cbn [lookup list_lookup].
  f_equal. rewrite !str_length_app. simpl. lia.
Qed.

Lemma infer_properties_Ok ppdir c3 a b c :
  components ppdir !! 3 = Some c3 →
  components ppdir !! 4 = Some (a +:+ "-" +:+ b +:+ "-" +:+ c) →
  hyphens a = 0 → hyphens b = 0 →
  infer_properties_from_ppdir ppdir
  = Ok (<["runtype" := c]> (<["platform" := a +:+ "-" +:+ b]>
        (<["runname" := c3]> ∅))).
Proof.
  intros H3 H4 Ha Hb. unfold infer_properties_from_ppdir, Py.index, components in *.
  rewrite H4. cbn [mbind result_bind].
  rewrite (second_hyphen a b c Ha Hb). cbn [mbind result_bind].
  rewrite H3. cbn [mbind result_bind].
  rewrite <-(str_app_assoc a "-" (b +:+ "-" +:+ c)).
  rewrite <-(str_app_assoc (a +:+ "-") b ("-" +:+ c)).
  rewrite (str_app_assoc a "-" b).
  rewrite slice_to_app.
  replace (String.length (a +:+ "-" +:+ b) + 1)
    with (String.length ((a +:+ "-" +:+ b) +:+ "-"))
    by (rewrite (str_length_app _ "-"); done).
  rewrite <-(str_app_assoc (a +:+ "-" +:+ b) "-" c).
  by rewrite slice_from_app.
Qed.

Lemma infer_properties_short ppdir :
  length (components ppdir) < 5 →
  infer_properties_from_ppdir ppdir = Raise MalformedPpPath.
Proof.
  intros Hlen. unfold infer_properties_from_ppdir, Py.index, components in *.
  by rewrite (lookup_ge_None_2 (Py.split (Py.replace "/" " " ppdir)) 4) by lia.
Qed.

Lemma infer_properties_no_cut ppdir pr :
  components ppdir !! 4 = Some pr → hyphens pr < 2 →
  infer_properties_from_ppdir ppdir = Raise MalformedPpPath.
Proof.
  intros H4 Hpr. unfold infer_properties_from_ppdir, Py.index, components in *.
  rewrite H4. cbn [mbind result_bind].
  by rewrite (lookup_ge_None_2 (Py.finditer "-" pr) 1)
    by (unfold hyphens in Hpr; lia).
Qed.

(** Claim C4, amended. The components of the path being the runs of
    characters between slashes and whitespace: when the 5th component has at
    least two hyphens, the run name is the 4th component, the platform is
    the 5th component up to its second hyphen and the run type is what
    follows that hyphen; with fewer than 5 components, or fewer than two
    hyphens in the 5th, the function fails with [IndexError]
    ([MalformedPpPath]). The path "/archive/run1/gfdl-cm4/c96-prod-ESM4/pp"
    has "pp" as its 5th component and so fails. *)
Theorem infer_properties_spec ppdir :
  (∀ c3 pr, components ppdir !! 3 = Some c3 →
     components ppdir !! 4 = Some pr → 2 ≤ hyphens pr →
     ∃ a b c, pr = a +:+ "-" +:+ b +:+ "-" +:+ c
       ∧ hyphens a = 0 ∧ hyphens b = 0
       ∧ infer_properties_from_ppdir ppdir
         = Ok (<["runtype" := c]> (<["platform" := a +:+ "-" +:+ b]>
               (<["runname" := c3]> ∅))))
  ∧ (length (components ppdir) < 5 →
     infer_properties_from_ppdir ppdir = Raise MalformedPpPath)
  ∧ (∀ pr, components ppdir !! 4 = Some pr → hyphens pr < 2 →
     infer_properties_from_ppdir ppdir = Raise MalformedPpPath)
  ∧ infer_properties_from_ppdir "/archive/run1/gfdl-cm4/c96-prod-ESM4/pp"
    = Raise MalformedPpPath
  ∧ infer_properties_from_ppdir
      "/archive/user/CM4/run1/gfdl.ncrc4-intel16-prod-openmp/pp"
    = Ok (<["runtype" := "prod-openmp"]>
          (<["platform" := "gfdl.ncrc4-intel16"]>
           (<["runname" := "run1"]> ∅))).
Proof.
  split; [|split; [apply infer_properties_short|
           split; [apply infer_properties_no_cut|split; reflexivity]]].
  intros c3 pr H3 H4 Hpr.
  destruct (split_first_hyphen pr) as (a & rest & -> & Ha & Hn); [lia|].
  destruct (split_first_hyphen rest) as (b & c & -> & Hb & _); [lia|].
  exists a, b, c. split; [done|]. split; [done|]. split; [done|].
  by apply infer_properties_Ok.
Qed.

Lemma infer_properties_spec_witness :
  ∃ a b c, "gfdl.ncrc4-intel16-prod-openmp" = a +:+ "-" +:+ b +:+ "-" +:+ c
    ∧ hyphens a = 0 ∧ hyphens b = 0
    ∧ infer_properties_from_ppdir
        "/archive/user/CM4/run1/gfdl.ncrc4-intel16-prod-openmp/pp"
      = Ok (<["runtype" := c]> (<["platform" := a +:+ "-" +:+ b]>
            (<["runname" := "run1"]> ∅))).
Proof.
  apply (proj1 (infer_properties_spec
    "/archive/user/CM4/run1/gfdl.ncrc4-intel16-prod-openmp/pp")).
  - reflexivity.
  - reflexivity.
  - vm_compute. lia.
Defined.

Lemma infer_properties_counterexample :
  components "/archive/run1/gfdl-cm4/c96-prod-ESM4/pp"
  = ["archive"; "run1"; "gfdl-cm4"; "c96-prod-ESM4"; "pp"]
  ∧ infer_properties_from_ppdir "/archive/run1/gfdl-cm4/c96-prod-ESM4/pp"
    = Raise MalformedPpPath
  ∧ ¬ ∃ freppdict,
        infer_properties_from_ppdir "/archive/run1/gfdl-cm4/c96-prod-ESM4/pp"
        = Ok freppdict
        ∧ freppdict !! "runname" = Some "run1".
Proof.
  split; [reflexivity|]. split; [reflexivity|].
  intros (freppdict & Hd & _). discriminate Hd.
Qed.

End properties.

(** ** The frepp command *)

Section command.
Local Open Scope Z_scope.

Lemma all_digits_app s t :
  all_digits (s +:+ t) = all_digits s && all_digits t.
Proof.
  induction s as [|c s IH]; [done|].
  rewrite str_app_cons. simpl. by rewrite IH, andb_assoc.
Qed.

Lemma decimal_value_app s t : ∀ acc,
  decimal_value acc (s +:+ t) = decimal_value (decimal_value acc s) t.
Proof.
  induction s as [|c s IH]; intros acc; [done|].
  rewrite str_app_cons. simpl. by rewrite IH.
Qed.

Lemma pretty_N_char_digit k :
  (k < 10)%N →
  Py.isdigit (pretty_N_char k) = true
  ∧ Py.digit_value (pretty_N_char k) = Z.of_N k.
Proof.
  intros Hk.
  assert (k = 0 ∨ k = 1 ∨ k = 2 ∨ k = 3 ∨ k = 4 ∨ k = 5 ∨ k = 6 ∨ k = 7
          ∨ k = 8 ∨ k = 9)%N as Hc by lia.
  repeat destruct Hc as [->|Hc]; try subst k; by vm_compute.
Qed.

(** [str(n)] for a natural number: its decimal digits. *)
Lemma pretty_N_go_digits x : ∀ s,
  ∃ ds, pretty_N_go x s = ds +:+ s
    ∧ all_digits ds = true
    ∧ decimal_value 0 ds = Z.of_N x
    ∧ ((0 < x)%N → ds ≠ "")
    ∧ ∀ k : nat, Z.of_N x < 10 ^ Z.of_nat k → (String.length ds ≤ k)%nat.
Proof.
  induction (N.lt_wf_0 x) as [x _ IH]; intros s.
  destruct (decide (x = 0)%N) as [->|Hx].
  { exists "". rewrite pretty_N_go_0. do 3 (split; [done|]).
    split; [lia|]. intros; simpl; lia. }
  rewrite pretty_N_go_step by lia.
  destruct (IH (x `div` 10)%N) with (s := String (pretty_N_char (x `mod` 10)) s)
    as (ds & -> & Hd & Hv & _ & Hlen).
  { apply N.div_lt; lia. }
  destruct (pretty_N_char_digit (x `mod` 10)) as [Hc Hcv].
  { apply N.mod_lt. lia. }
  exists (ds +:+ String (pretty_N_char (x `mod` 10)) "").
  split; [by rewrite str_app_assoc|].
  split; [by rewrite all_digits_app, Hd; simpl; rewrite Hc|].
  split; [|split].
  - rewrite decimal_value_app, Hv. simpl. rewrite Hcv.
    rewrite N2Z.inj_div, N2Z.inj_mod. simpl.
    pose proof (Z.div_mod (Z.of_N x) 10). lia.
  - intros _. by destruct ds.
  - intros k Hk. rewrite str_length_app. simpl.
    destruct k as [|k]; [simpl in Hk; lia|].
    assert (String.length ds ≤ k)%nat; [|lia].
    apply Hlen. rewrite N2Z.inj_div. simpl.
    apply Z.div_lt_upper_bound; [lia|].
    rewrite Nat2Z.inj_succ, Z.pow_succ_r in Hk by lia. lia.
Qed.

Lemma pretty_nonneg y :
  0 ≤ y →
  ∃ c ds, pretty y = String c ds
    ∧ all_digits (String c ds) = true
    ∧ decimal_value 0 (String c ds) = y
    ∧ ∀ k : nat, (1 ≤ k)%nat → y < 10 ^ Z.of_nat k →
        (String.length (String c ds) ≤ k)%nat.
Proof.
  intros Hy. destruct y as [|p|p]; [|clear Hy|lia].
  - exists "0"%char, "". do 3 (split; [done|]). intros; simpl; lia.
  - unfold pretty, pretty_Z, pretty, pretty_positive, pretty, pretty_N.
    rewrite decide_False by done.
    destruct (pretty_N_go_digits (N.pos p) "") as (ds & -> & Hd & Hv & Hne & Hlen).
    rewrite str_app_nil_r. destruct ds as [|c ds]; [by destruct Hne|].
    exists c, ds. do 3 (split; [done|]).
    intros k _ Hk. by apply Hlen.
Qed.

Lemma isdigit_not_sign c :
  Py.isdigit c = true → Ascii.eqb c "-" || Ascii.eqb c "+" = false.
Proof.
  destruct c as [[] [] [] [] [] [] [] []]; vm_compute;
    first [discriminate | reflexivity].
Qed.

Lemma all_digits_zeros n : all_digits (Py.zeros n) = true.
Proof. induction n as [|n IH]; [done|]. simpl. by rewrite IH. Qed.

Lemma decimal_value_zeros n : decimal_value 0 (Py.zeros n) = 0.
Proof.
  induction n as [|n IH]; [done|].
  by change (decimal_value 0 (Py.zeros (S n)))
    with (decimal_value 0 (Py.zeros n)).
Qed.

Lemma length_zeros n : String.length (Py.zeros n) = n.
Proof. induction n as [|n IH]; [done|]. simpl. by rewrite IH. Qed.

(** The year of the command, for a year that is not negative. *)
Lemma cyear_nonneg year :
  0 ≤ year →
  let cyear := Py.zfill 4 (pretty year) in
  cyear = Py.zeros (4 - String.length (pretty year)) +:+ pretty year
  ∧ all_digits cyear = true
  ∧ decimal_value 0 cyear = year
  ∧ (4 ≤ String.length cyear)%nat
  ∧ (year ≤ 9999 → cyear = zpad 4 year).
Proof.
  intros Hy cyear. subst cyear.
  destruct (pretty_nonneg year Hy) as (c & ds & Hp & Hd & Hv & Hlen).
  rewrite Hp. unfold Py.zfill.
  assert (Py.isdigit c = true) as Hc.
  { simpl in Hd. by apply andb_true_iff in Hd as [? _]. }
  rewrite (isdigit_not_sign c Hc).
  set (s := String c ds) in *.
  assert (all_digits (Py.zeros (4 - String.length s) +:+ s) = true) as Hall.
  { by rewrite all_digits_app, all_digits_zeros, Hd. }
  assert (decimal_value 0 (Py.zeros (4 - String.length s) +:+ s) = year) as Hval.
  { by rewrite decimal_value_app, decimal_value_zeros. }
  do 3 (split; [done|]). split.
  - rewrite str_length_app, length_zeros. lia.
  - intros Hle.
    assert (String.length (Py.zeros (4 - String.length s) +:+ s) = 4%nat) as Hl.
    { rewrite str_length_app, length_zeros.
      pose proof (Hlen 4%nat ltac:(lia) ltac:(simpl; lia)). lia. }
    symmetry. rewrite <-Hval at 1. rewrite <-Hl at 1.
    by apply zpad_decimal_0.
Qed.

Lemma no_space_app s t : no_space (s +:+ t) = no_space s && no_space t.
Proof.
  induction s as [|c s IH]; [done|].
  rewrite str_app_cons. simpl. by rewrite IH, andb_assoc.
Qed.

Lemma all_digits_no_space s : all_digits s = true → no_space s = true.
Proof.
  induction s as [|c s IH]; [done|]. simpl.
  intros [Hc Hs]%andb_true_iff. by rewrite (isdigit_not_space c Hc), IH.
Qed.

Lemma no_space_zeros n : no_space (Py.zeros n) = true.
Proof. apply all_digits_no_space, all_digits_zeros. Qed.

Lemma no_space_pretty (year : Z) : no_space (pretty year) = true ∧ pretty year ≠ "".
Proof.
  destruct year as [|p|p].
  - done.
  - destruct (pretty_nonneg (Z.pos p)) as (c & ds & -> & Hd & _); [lia|].
    split; [by apply all_digits_no_space|done].
  - unfold pretty, pretty_Z.
    destruct (pretty_nonneg (Z.pos p)) as (c & ds & Hp & Hd & _); [lia|].
    unfold pretty at 1, pretty_Z in Hp. rewrite Hp.
    split; [|done]. rewrite no_space_app.
    by rewrite (all_digits_no_space _ Hd).
Qed.

Lemma cyear_word (year : Z) : is_word (Py.zfill 4 (pretty year)).
Proof.
  destruct (no_space_pretty year) as [Hs Hne]. unfold Py.zfill.
  destruct (pretty year) as [|c s]; [done|].
  simpl in Hs. apply andb_true_iff in Hs as [Hc Hs].
  destruct (Ascii.eqb c "-" || Ascii.eqb c "+").
  - split; [done|]. simpl. by rewrite Hc, no_space_app, no_space_zeros, Hs.
  - split.
    + by destruct (Py.zeros _).
    + rewrite no_space_app, no_space_zeros. simpl. by rewrite Hc, Hs.
Qed.

Lemma is_word_app s t : is_word s → no_space t = true → is_word (s +:+ t).
Proof.
  intros [Hne Hs] Ht. split; [by destruct s|].
  by rewrite no_space_app, Hs, Ht.
Qed.

Lemma starts_word_app w rest :
  is_word w → Py.starts_word (w +:+ rest) = true.
Proof.
  intros [Hne Hs]. destruct w as [|c w]; [done|].
  simpl in *. by apply andb_true_iff in Hs as [-> _].
Qed.

(** [split] takes a word off the front of a string. *)
Lemma split_word w rest :
  is_word w → Py.split (w +:+ String " " rest) = w :: Py.split rest.
Proof.
  intros [Hne Hs]. induction w as [|c w IH]; [done|].
  rewrite str_app_cons. simpl in Hs. apply andb_true_iff in Hs as [Hc Hs].
  apply negb_true_iff in Hc. cbn [Py.split]. rewrite Hc.
  destruct w as [|c' w].
  - rewrite str_app_nil_l. cbn [Py.starts_word].
    replace (Py.isspace " ") with true by done. simpl. done.
  - rewrite (starts_word_app (String c' w)) by done.
    by rewrite IH.
Qed.

Lemma split_last_word w : is_word w → Py.split w = [w].
Proof.
  intros [Hne Hs]. induction w as [|c w IH]; [done|].
  simpl in Hs. apply andb_true_iff in Hs as [Hc Hs].
  apply negb_true_iff in Hc. cbn [Py.split]. rewrite Hc.
  destruct w as [|c' w]; [done|].
  assert (is_word (String c' w)) as Hword by (by split).
  pose proof (starts_word_app (String c' w) "" Hword) as Hw.
  rewrite str_app_nil_r in Hw. rewrite Hw. by rewrite IH.
Qed.

Lemma is_word_literal_app (lit s : string) :
  is_word lit → is_word s → is_word (lit +:+ s).
Proof. intros Hl [_ Hs]. by apply is_word_app. Qed.

(** Claim C5. The command built holds the target date [cyear0101] and
    twice the year [cyear], where [cyear] is [str(year).zfill(4)]: for a
    year from 0 on, its decimal digits after as many zeros as it takes to
    reach four characters (so "1999" and "19990101" for 1999); the other
    arguments are the entries of the dictionary, the component and the run
    name, unchanged. When these are words, the words of the command are
    the arguments in order. *)
Theorem frepp_cmd_spec comp year (freppdict : gmap string string)
    freversion xmlpath platform runtype runname :
  freppdict !! "freversion" = Some freversion →
  freppdict !! "xmlpath" = Some xmlpath →
  freppdict !! "platform" = Some platform →
  freppdict !! "runtype" = Some runtype →
  freppdict !! "runname" = Some runname →
  let cyear := Py.zfill 4 (pretty year) in
  frepp_cmd comp year freppdict
  = Ok ("module load fre/" +:+ freversion +:+ " ; frepp -t "
        +:+ (cyear +:+ "0101") +:+ " -R -Y " +:+ cyear +:+ " -Z " +:+ cyear
        +:+ " -s -x " +:+ xmlpath +:+ " -P " +:+ platform +:+ " -T "
        +:+ runtype +:+ " -c " +:+ comp +:+ " " +:+ runname)
  ∧ (0 ≤ year →
       cyear = Py.zeros (4 - String.length (pretty year)) +:+ pretty year
       ∧ all_digits cyear = true
       ∧ decimal_value 0 cyear = year
       ∧ (4 ≤ String.length cyear)%nat
       ∧ (year ≤ 9999 → cyear = zpad 4 year))
  ∧ (year = 1999 → cyear = "1999" ∧ cyear +:+ "0101" = "19990101")
  ∧ (is_word freversion → is_word xmlpath → is_word platform →
     is_word runtype → is_word comp → is_word runname →
     ∃ cmd, frepp_cmd comp year freppdict = Ok cmd
       ∧ Py.split cmd
         = ["module"; "load"; "fre/" +:+ freversion; ";"; "frepp";
            "-t"; cyear +:+ "0101"; "-R"; "-Y"; cyear; "-Z"; cyear;
            "-s"; "-x"; xmlpath; "-P"; platform; "-T"; runtype;
            "-c"; comp; runname]).
Proof.
  intros Hv Hx Hp Ht Hn cyear.
  assert (frepp_cmd comp year freppdict
    = Ok ("module load fre/" +:+ freversion +:+ " ; frepp -t "
        +:+ (cyear +:+ "0101") +:+ " -R -Y " +:+ cyear +:+ " -Z " +:+ cyear
        +:+ " -s -x " +:+ xmlpath +:+ " -P " +:+ platform +:+ " -T "
        +:+ runtype +:+ " -c " +:+ comp +:+ " " +:+ runname)) as Hcmd.
  { unfold frepp_cmd, getitem. rewrite Hv, Hx, Hp, Ht, Hn.
    cbn [mbind result_bind]. fold cyear. by rewrite (str_app_assoc cyear). }
  split; [done|]. split; [apply cyear_nonneg|]. split.
  { intros ->. by vm_compute. }
  intros Wv Wx Wp Wt Wc Wn. eexists. split; [exact Hcmd|].
  pose proof (cyear_word year) as Wy. fold cyear in Wy.
  assert (is_word (cyear +:+ "0101")) as Wd by (by apply is_word_app).
  assert (is_word ("fre/" +:+ freversion)) as Wf
    by (by apply is_word_literal_app).
  assert (∀ w rest, is_word w →
            Py.split (w +:+ " " +:+ rest) = w :: Py.split rest) as Hstep.
  { intros w rest Hw. by apply split_word. }
  transitivity (Py.split
    ("module" +:+ " " +:+ "load" +:+ " " +:+ ("fre/" +:+ freversion)
     +:+ " " +:+ ";" +:+ " " +:+ "frepp" +:+ " " +:+ "-t" +:+ " "
     +:+ (cyear +:+ "0101") +:+ " " +:+ "-R" +:+ " " +:+ "-Y" +:+ " "
     +:+ cyear +:+ " " +:+ "-Z" +:+ " " +:+ cyear +:+ " " +:+ "-s" +:+ " "
     +:+ "-x" +:+ " " +:+ xmlpath +:+ " " +:+ "-P" +:+ " " +:+ platform
     +:+ " " +:+ "-T" +:+ " " +:+ runtype +:+ " " +:+ "-c" +:+ " "
     +:+ comp +:+ " " +:+ runname)).
  { reflexivity. }
  rewrite !Hstep by done. by rewrite split_last_word.
Qed.

Lemma frepp_cmd_spec_witness :
  frepp_cmd "ocean_monthly" 1999
    (<["freversion" := "bronx-19"]> (<["xmlpath" := "/x/run.xml"]>
     (<["runtype" := "prod"]> (<["platform" := "gfdl.ncrc4-intel16"]>
      (<["runname" := "run1"]> ∅)))))
  = Ok "module load fre/bronx-19 ; frepp -t 19990101 -R -Y 1999 -Z 1999 -s -x /x/run.xml -P gfdl.ncrc4-intel16 -T prod -c ocean_monthly run1".
Proof.
  refine (proj1 (frepp_cmd_spec "ocean_monthly" 1999 _ "bronx-19"
                   "/x/run.xml" "gfdl.ncrc4-intel16" "prod" "run1"
                   _ _ _ _ _)); reflexivity.
Defined.

End command.
